(** * Campaign Analysis Dashboard: the flag pipeline of [2.py]

    A shallow embedding of the data-transformation part of the Streamlit
    script [2.py] (date normalisation, the three quality flags, the global
    fill rate and the per-dimension rollups), together with the script's
    control flow (what is shown before an exception reaches the [except]
    block).

    Conventions.
    - An [int64] column is a list of [Z]; sums wrap around as numpy's do.
    - A [float64] value is a [spec_float] of the Standard Library at
      precision 53 and maximal exponent 1024, so that a division by zero
      gives an infinity or a NaN as it does in pandas.
    - A [datetime64] cell is an [option Timestamp], [None] being [NaT].
    - A text cell is an [option string], [None] being the [NaN] of an
      empty field.
    - The Streamlit calls are recorded as a list of events, in the order in
      which the script issues them. *)

From Stdlib Require Import ZArith List String Ascii Bool Lia Sorted SpecFloat.
Import ListNotations.
Local Open Scope Z_scope.

(* ================================================================= *)
(** ** Orders on group keys *)

(** [groupby] sorts its groups by key; the keys of the script are strings,
    timestamps and tuples of these. *)
Class Ord (K : Type) := cmp : K -> K -> comparison.

#[export] Instance Ord_Z : Ord Z := Z.compare.
#[export] Instance Ord_string : Ord string := String.compare.

#[export] Instance Ord_option {K} `{Ord K} : Ord (option K) :=
  fun a b =>
    match a, b with
    | None, None => Eq
    | None, Some _ => Lt
    | Some _, None => Gt
    | Some x, Some y => cmp x y
    end.

#[export] Instance Ord_prod {K1 K2} `{Ord K1} `{Ord K2} : Ord (K1 * K2) :=
  fun a b =>
    match cmp (fst a) (fst b) with
    | Eq => cmp (snd a) (snd b)
    | c => c
    end.

Definition cmp_eqb {K} `{Ord K} (a b : K) : bool :=
  match cmp a b with Eq => true | _ => false end.

(** What the proofs ask of an order: [cmp] decides equality and is a strict
    total order. *)
Class OrdLaws (K : Type) `{Ord K} : Prop := {
  cmp_eq : forall a b : K, cmp a b = Eq <-> a = b;
  cmp_antisym : forall a b : K, cmp b a = CompOpp (cmp a b);
  cmp_trans : forall a b c : K, cmp a b = Lt -> cmp b c = Lt -> cmp a c = Lt
}.

(* ================================================================= *)
(** ** Machine numbers *)

(** Two's complement wrap-around of a 64-bit signed integer. *)
Definition int64_wrap (z : Z) : Z := (z + 2 ^ 63) mod 2 ^ 64 - 2 ^ 63.

(** [Series.sum()] of an [int64] column. *)
Definition int64_sum (l : list Z) : Z := int64_wrap (fold_right Z.add 0 l).

Module F64.
Definition prec : Z := 53.
Definition emax : Z := 1024.
Definition t := spec_float.

(** Conversion of an integer, to nearest, ties to even. *)
Definition of_int (z : Z) : t := binary_normalize prec emax z 0 false.

Definition mul : t -> t -> t := SFmul prec emax.
Definition div : t -> t -> t := SFdiv prec emax.
Definition sub : t -> t -> t := SFsub prec emax.
Definition ltb : t -> t -> bool := SFltb.
Definition eqb : t -> t -> bool := SFeqb.

Definition zero : t := S754_zero false.
Definition inf : t := S754_infinity false.
Definition nan : t := S754_nan.

Definition is_nan (x : t) : bool :=
  match x with S754_nan => true | _ => false end.

(** [numpy.rint]: the nearest integral value, ties to even. *)
Definition rint (x : t) : t :=
  match x with
  | S754_finite s m e =>
      if 0 <=? e then x
      else
        let '(mrs, _) := shr (Build_shr_record (Zpos m) false false) e (- e) in
        let z := round_nearest_even (shr_m mrs) (loc_of_shr_record mrs) in
        binary_normalize prec emax (cond_Zopp s z) 0 s
  | _ => x
  end.

(** [Series.round(decimals)] for [decimals >= 0], as numpy computes it:
    scale by the power of ten, [rint], scale back. *)
Definition round (x : t) (decimals : Z) : t :=
  let f := of_int (10 ^ decimals) in
  div (rint (mul x f)) f.
End F64.

(* ================================================================= *)
(** ** The table *)

(** [datetime64[ns]]: nanoseconds since the epoch. *)
Definition Timestamp := Z.

(** One line of the campaign table; [D] is the type of a date cell: the
    text of the CSV cell before [pd.to_datetime], an [option Timestamp]
    after it. A cell of the identifiers and of the two dimensions is the
    text of its field, or is missing ([NaN]) when the field is empty. The
    two impression columns are integer columns ([int64]): every field of
    theirs holds an integer. *)
Record RowOf (D : Type) := mkRow {
  Lead_ID : option string;
  Line_item_ID : option string;
  Page : option string;
  Property : option string;
  Booked_Impressions : Z;
  Delivered_Impressions : Z;
  Goal_Start_Date : D;
  Goal_End_Date : D;
  Created_Time : D
}.
Arguments mkRow {D}.
Arguments Lead_ID {D}.
Arguments Line_item_ID {D}.
Arguments Page {D}.
Arguments Property {D}.
Arguments Booked_Impressions {D}.
Arguments Delivered_Impressions {D}.
Arguments Goal_Start_Date {D}.
Arguments Goal_End_Date {D}.
Arguments Created_Time {D}.

Definition RawRow := RowOf string.
Definition Row := RowOf (option Timestamp).

(** The key of the overbooking groups. *)
Definition GroupKey : Type :=
  option string * option string * option Timestamp * option Timestamp.

Definition group_key (r : Row) : GroupKey :=
  (Page r, Property r, Goal_Start_Date r, Goal_End_Date r).

Definition isna {A} (d : option A) : bool :=
  match d with None => true | Some _ => false end.

(** A group key with a missing value in it, [NaN] or [NaT]: [groupby]
    leaves such rows out ([dropna=True] is the default). *)
Definition group_key_na (k : GroupKey) : bool :=
  let '(p, q, s, e) := k in isna p || isna q || isna s || isna e.

(* ================================================================= *)
(** ** groupby and merge *)

Section GroupBy.
Context {A K : Type} `{Ord K}.

(** Insertion of a row in the groups, which are kept sorted by key. *)
Fixpoint add_to_group (k : K) (a : A) (g : list (K * list A))
  : list (K * list A) :=
  match g with
  | [] => [(k, [a])]
  | (k', rows) :: g' =>
      match cmp k k' with
      | Eq => (k', a :: rows) :: g'
      | Lt => (k, [a]) :: g
      | Gt => (k', rows) :: add_to_group k a g'
      end
  end.

(** [df.groupby(key)]: the groups in increasing order of their key, the
    rows of a group in the order of the table, the rows whose key is
    missing left out. *)
Fixpoint groupby (key : A -> K) (na : K -> bool) (l : list A)
  : list (K * list A) :=
  match l with
  | [] => []
  | a :: l' =>
      if na (key a) then groupby key na l'
      else add_to_group (key a) a (groupby key na l')
  end.
End GroupBy.

(** [left.merge(right, on=key, how='left')] where the one column that both
    sides have outside the key keeps its name on the left (suffix [''])
    and is renamed on the right (suffix ['_grouped']): every row of the
    left side is paired with each row of the right side that has its key,
    or once with a missing value when there is none. *)
Definition merge_left {L K V} `{Ord K}
  (key : L -> K) (left : list L) (right : list (K * V))
  : list (L * option V) :=
  flat_map
    (fun l =>
       match filter (fun kv => cmp_eqb (key l) (fst kv)) right with
       | [] => [(l, None)]
       | matches => map (fun kv => (l, Some (snd kv))) matches
       end)
    left.

(** The value that a frame holds under a key, and the frames whose keys are
    strictly increasing, as those that [groupby] returns are. *)
Definition lookup {K V} `{Ord K} (k : K) (g : list (K * V)) : option V :=
  option_map snd (find (fun kv => cmp_eqb k (fst kv)) g).

Definition sorted_keys {K V} `{Ord K} (g : list (K * V)) : Prop :=
  StronglySorted (fun a b => cmp a b = Lt) (map fst g).

(* ================================================================= *)
(** ** Flag engine *)

Definition PAGE_CAPACITY : Z := 1500000.
Definition sla_threshold : Z := 90.

(** The table once the three flags are added. [Overbooking] is the column
    set by [df['Overbooking'] = False]; [Overbooking_grouped] is the column
    that the merge brings in from [grouped] under the suffix
    ['_grouped']. *)
Record Flagged := mkFlagged {
  base : Row;
  Overbooking : bool;
  Overbooking_grouped : option bool;
  Underdelivery : bool;
  SLA_Breach : bool
}.

(** [df.groupby([...])['Booked Impressions'].sum().reset_index()] followed
    by [grouped['Overbooking'] = grouped['Booked Impressions'] > PAGE_CAPACITY];
    the sum column is carried along. *)
Definition grouped_sum (df : list (Row * bool)) : list (GroupKey * Z) :=
  map (fun g => (fst g, int64_sum (map (fun r => Booked_Impressions (fst r)) (snd g))))
      (groupby (fun r => group_key (fst r)) group_key_na df).

Definition grouped (df : list (Row * bool)) : list (GroupKey * bool) :=
  map (fun g => (fst g, PAGE_CAPACITY <? snd g)) (grouped_sum df).

(** The rows of a table that share a group key, and the sum of their
    booked impressions. *)
Definition same_group (rows : list Row) (k : GroupKey) : list Row :=
  filter (fun r => cmp_eqb k (group_key r)) rows.

Definition booked_in_group (rows : list Row) (k : GroupKey) : Z :=
  fold_right Z.add 0 (map Booked_Impressions (same_group rows k)).

(** What the merge finds in [grouped] under a key. *)
Definition merged_flag (rows : list Row) (k : GroupKey) : option bool :=
  if group_key_na k then None
  else match same_group rows k with
       | [] => None
       | g => Some (PAGE_CAPACITY <? int64_sum (map Booked_Impressions g))
       end.

(** [df['Delivered Impressions'] < df['Booked Impressions']] on one row. *)
Definition underdelivery (r : Row) : bool :=
  Delivered_Impressions r <? Booked_Impressions r.

(** [df['Delivered Impressions'] < (sla_threshold/100) * df['Booked Impressions']]:
    the quotient of the two Python integers is a float, the product and the
    comparison are done in [float64]. *)
Definition under_threshold (r : Row) : bool :=
  F64.ltb (F64.of_int (Delivered_Impressions r))
          (F64.mul (F64.div (F64.of_int sla_threshold) (F64.of_int 100))
                   (F64.of_int (Booked_Impressions r))).

(** [a > b] on two [datetime64] cells; false when either is [NaT]. *)
Definition date_gt (a b : option Timestamp) : bool :=
  match a, b with
  | Some x, Some y => y <? x
  | _, _ => false
  end.

(** [df['Created Time'] > df['Goal Start Date']] on one row. *)
Definition late_start (r : Row) : bool :=
  date_gt (Created_Time r) (Goal_Start_Date r).

Definition sla_breach (r : Row) : bool :=
  under_threshold r || late_start r.

(** Lines 41 to 58 of the script. *)
Definition add_flags (rows : list Row) : list Flagged :=
  let df := map (fun r => (r, false)) rows in
  let merged := merge_left (fun l => group_key (fst l)) df (grouped df) in
  map (fun m =>
         let r := fst (fst m) in
         mkFlagged r (snd (fst m)) (snd m) (underdelivery r) (sla_breach r))
      merged.

(** Lines 61 to 63. The Python integer [0] of the [else] branch is carried
    as the float zero: it is formatted and subtracted from like it. *)
Definition total_booked (df : list Flagged) : Z :=
  int64_sum (map (fun f => Booked_Impressions (base f)) df).

Definition total_delivered (df : list Flagged) : Z :=
  int64_sum (map (fun f => Delivered_Impressions (base f)) df).

Definition fill_rate (df : list Flagged) : F64.t :=
  if 0 <? total_booked df
  then F64.mul (F64.div (F64.of_int (total_delivered df))
                        (F64.of_int (total_booked df)))
               (F64.of_int 100)
  else F64.zero.

(* ================================================================= *)
(** ** Rollup aggregator *)

(** A line of [page_metrics] or [property_metrics], in the order of the
    columns of the displayed frame. *)
Record Metrics := mkMetrics {
  dimension : string;
  Booked_sum : Z;
  Delivered_sum : Z;
  Campaign_Count : Z;
  Overbooking_Rate : F64.t;
  Underdelivery_Rate : F64.t;
  SLA_Breach_Rate : F64.t;
  Fill_Rate : F64.t
}.

Definition count_true (flag : Flagged -> bool) (rows : list Flagged) : Z :=
  Z.of_nat (List.length (filter flag rows)).

(** ['mean'] of a boolean column over one group. *)
Definition mean (flag : Flagged -> bool) (rows : list Flagged) : F64.t :=
  F64.div (F64.of_int (count_true flag rows))
          (F64.of_int (Z.of_nat (List.length rows))).

(** [(col * 100).round(2)] *)
Definition percentage (x : F64.t) : F64.t :=
  F64.round (F64.mul x (F64.of_int 100)) 2.

(** [(delivered / booked * 100).round(2)] on the two sums of a group: the
    division of the two [int64] columns is the [float64] one, and nothing
    guards it. *)
Definition group_fill_rate (delivered booked : Z) : F64.t :=
  F64.round (F64.mul (F64.div (F64.of_int delivered) (F64.of_int booked))
                     (F64.of_int 100)) 2.

(** ['count'] of a column over one group: the cells that are not
    missing. *)
Definition count {A} (col : Flagged -> option A) (rows : list Flagged) : Z :=
  Z.of_nat (List.length (filter (fun f => negb (isna (col f))) rows)).

Definition aggregate (g : string * list Flagged) : Metrics :=
  let rows := snd g in
  let booked := int64_sum (map (fun f => Booked_Impressions (base f)) rows) in
  let delivered := int64_sum (map (fun f => Delivered_Impressions (base f)) rows) in
  mkMetrics (fst g) booked delivered (count (fun f => Lead_ID (base f)) rows)
            (percentage (mean Overbooking rows))
            (percentage (mean Underdelivery rows))
            (percentage (mean SLA_Breach rows))
            (group_fill_rate delivered booked).

(** [df.groupby(d).agg({...}).reset_index()] and the columns derived from
    it, lines 151 to 173 and 211 to 233. The rows whose cell in column [d]
    is missing are in no group, so the key that [reset_index] gives back
    as a column is never missing. *)
Definition rollup (d : Row -> option string) (df : list Flagged) : list Metrics :=
  flat_map (fun g => match fst g with
                     | Some v => [aggregate (v, snd g)]
                     | None => []
                     end)
           (groupby (fun f => d (base f)) isna df).

Definition page_metrics : list Flagged -> list Metrics := rollup Page.
Definition property_metrics : list Flagged -> list Metrics := rollup Property.

(* ================================================================= *)
(** ** What the script shows *)

(** The exceptions that the script raises on the frames of the model:
    those that [pd.read_csv] returns (line 22 has not raised) with integer
    impression columns. *)
Inductive Exception :=
| KeyError (missing : list string)
| ZeroDivisionError.

(** [df[show_columns]] on one row. *)
Record ShownRow := mkShown {
  shown_Lead_ID : option string;
  shown_Line_item_ID : option string;
  shown_Page : option string;
  shown_Property : option string;
  shown_Booked_Impressions : Z;
  shown_Delivered_Impressions : Z;
  shown_Overbooking : bool;
  shown_Underdelivery : bool;
  shown_SLA_Breach : bool
}.

Inductive Value :=
| Int (n : Z)
| Percent (x : F64.t)
| Text (s : string).

Inductive Table :=
| CampaignData (rows : list ShownRow)
| MetricsTable (rows : list Metrics).

(** The calls to Streamlit. [st_exception prefix e] is
    [st.error(f"{prefix}{e}")]. The layout calls ([st.columns], the [with]
    blocks) show nothing by themselves and are left out. *)
Inductive Event :=
| st_warning (msg : string)
| st_error (msg : string)
| st_exception (prefix : string) (e : Exception)
| st_write (msg : string)
| st_header (title : string)
| st_subheader (title : string)
| st_metric (label : string) (value : Value) (delta : option Value)
| st_dataframe (t : Table)
| st_download_button (label : string) (data : list ShownRow)
| st_tabs (labels : list string)
| st_plotly_chart (title : string).

(** A run of a piece of the script: what it has shown, and either the
    exception that interrupted it or its value. *)
Definition Script (A : Type) : Type := list Event * (Exception + A).

Definition ret {A} (a : A) : Script A := ([], inr a).

Definition bind {A B} (m : Script A) (f : A -> Script B) : Script B :=
  match snd m with
  | inl e => (fst m, inl e)
  | inr a => (fst m ++ fst (f a), snd (f a))
  end.

Definition emit (ev : Event) : Script unit := ([ev], inr tt).
Definition raise {A} (e : Exception) : Script A := ([], inl e).

(** [try: m except Exception as e: handler e] *)
Definition try_except {A} (m : Script A) (handler : Exception -> Script A)
  : Script A :=
  match snd m with
  | inl e => (fst m ++ fst (handler e), snd (handler e))
  | inr a => m
  end.

Declare Scope script_scope.
Delimit Scope script_scope with script.
Notation "x <- c1 ;; c2" := (bind c1 (fun x => c2))
  (at level 61, c1 at next level, right associativity) : script_scope.
Notation "c1 ;; c2" := (bind c1 (fun _ => c2))
  (at level 61, right associativity) : script_scope.

Fixpoint emit_all (evs : list Event) : Script unit :=
  match evs with
  | [] => ret tt
  | ev :: evs' => (emit ev ;; emit_all evs')%script
  end.

(** The uploaded file as [pd.read_csv] returns it: the names of its
    columns and its lines. A column that the file lacks is absent from
    [columns]; what the lines hold for it is never read, every access to a
    column going through [getitem] or [getitems]. The frames are those of
    the files that [pd.read_csv] reads and whose impression fields all
    hold integers; a file that it cannot read, or one with text in an
    impression field, is not among them. *)
Record Upload := mkUpload {
  columns : list string;
  records : list RawRow
}.

Definition has_column (u : Upload) (col : string) : bool :=
  existsb (String.eqb col) (columns u).

(** [df[col]] *)
Definition getitem (u : Upload) (col : string) : Script unit :=
  if has_column u col then ret tt else raise (KeyError [col]).

(** [df[cols]] with a list of names: the error names all that are absent. *)
Definition getitems (u : Upload) (cols : list string) : Script unit :=
  match filter (fun c => negb (has_column u c)) cols with
  | [] => ret tt
  | missing => raise (KeyError missing)
  end.

Definition date_columns : list (string * (RawRow -> string)) :=
  [("Goal Start Date", Goal_Start_Date);
   ("Goal End Date", Goal_End_Date);
   ("Created Time", Created_Time)]%string.

Definition parse_warning (col : string) : string :=
  ("Some " ++ col ++
   " dates could not be parsed. Please ensure dates are in a standard format.")%string.

Definition LF : string := String (ascii_of_nat 10) EmptyString.

Definition required_columns : list string :=
  ["Lead ID"; "Line item ID"; "Page"; "Property"; "Booked Impressions";
   "Delivered Impressions"; "Goal Start Date"; "Goal End Date";
   "Created Time"]%string.

(** The text of line 269. *)
Definition bullets (l : list string) : string :=
  String.concat LF (map (fun c => ("- " ++ c)%string) l).

Definition show_columns : list string :=
  ["Lead ID"; "Line item ID"; "Page"; "Property"; "Booked Impressions";
   "Delivered Impressions"; "Overbooking"; "Underdelivery"; "SLA_Breach"]%string.

(** The columns that lines 41 to 58 add to the frame. *)
Definition added_columns : list string :=
  ["Overbooking"; "Overbooking_grouped"; "Underdelivery"; "SLA_Breach"]%string.

Definition show (f : Flagged) : ShownRow :=
  let r := base f in
  mkShown (Lead_ID r) (Line_item_ID r) (Page r) (Property r)
          (Booked_Impressions r) (Delivered_Impressions r)
          (Overbooking f) (Underdelivery f) (SLA_Breach f).

(* ================================================================= *)
(** ** The script *)

Section Script.
(** [pd.to_datetime(_, dayfirst=True, errors='coerce')] on one cell: the
    timestamp read from the text, or [NaT] when it cannot be read. With
    [errors='coerce'] the call does not raise, so the [except] arm of
    the date loop (lines 36 to 38) is never entered. *)
Variable to_datetime : string -> option Timestamp.

Local Open Scope script_scope.

(** [df[col] = pd.to_datetime(df[col], ...)] seen from one cell; a
    column that the file lacks is skipped by [if col in df.columns]. *)
Definition parse_cell (u : Upload) (col raw : string) : option Timestamp :=
  if has_column u col then to_datetime raw else None.

Definition normalize_row (u : Upload) (r : RawRow) : Row :=
  mkRow (Lead_ID r) (Line_item_ID r) (Page r) (Property r)
        (Booked_Impressions r) (Delivered_Impressions r)
        (parse_cell u "Goal Start Date" (Goal_Start_Date r))
        (parse_cell u "Goal End Date" (Goal_End_Date r))
        (parse_cell u "Created Time" (Created_Time r)).

(** [if df[col].isna().any(): st.warning(...)] *)
Definition column_warning (u : Upload) (col : string * (RawRow -> string))
  : list Event :=
  if has_column u (fst col)
     && existsb (fun r => isna (to_datetime (snd col r))) (records u)
  then [st_warning (parse_warning (fst col))]
  else [].

(** The loop of lines 27 to 38. *)
Definition normalize_dates (u : Upload) : Script (list Row) :=
  emit_all (flat_map (column_warning u) date_columns) ;;
  ret (map (normalize_row u) (records u)).

(** Lines 41 to 63: the columns are read in this order. *)
Definition flag_engine (u : Upload) (rows : list Row) : Script (list Flagged) :=
  getitem u "Page" ;;
  getitem u "Property" ;;
  getitem u "Goal Start Date" ;;
  getitem u "Goal End Date" ;;
  getitem u "Booked Impressions" ;;
  getitem u "Delivered Impressions" ;;
  getitem u "Booked Impressions" ;;
  getitem u "Delivered Impressions" ;;
  getitem u "Booked Impressions" ;;
  getitem u "Created Time" ;;
  getitem u "Goal Start Date" ;;
  getitem u "Booked Impressions" ;;
  getitem u "Delivered Impressions" ;;
  ret (add_flags rows).

(** Lines 65 to 81. *)
Definition show_metrics (df : list Flagged) : Script unit :=
  let rate := fill_rate df in
  emit (st_header "Overall Campaign Performance") ;;
  emit (st_metric "Overall Fill Rate" (Percent rate)
          (Some (if F64.eqb rate (F64.of_int 100) then Text "On Target"
                 else Percent (F64.sub rate (F64.of_int 100))))) ;;
  emit (st_header "Campaign Performance Metrics") ;;
  emit (st_metric "Total Campaigns" (Int (Z.of_nat (List.length df))) None) ;;
  emit (st_metric "Overbooking Issues" (Int (count_true Overbooking df)) None) ;;
  emit (st_metric "Underdelivery Issues" (Int (count_true Underdelivery df)) None) ;;
  emit (st_metric "SLA Breaches" (Int (count_true SLA_Breach df)) None).

(** Lines 83 to 100. *)
Definition show_data (u : Upload) (df : list Flagged) : Script unit :=
  emit (st_header "Campaign Data") ;;
  getitems (mkUpload (columns u ++ added_columns) (records u)) show_columns ;;
  emit (st_dataframe (CampaignData (map show df))) ;;
  emit (st_download_button "Download data as CSV" (map show df)).

(** The first tab, lines 108 to 144: the percentages divide by [len(df)]. *)
Definition issue_distribution (df : list Flagged) : Script unit :=
  emit (st_plotly_chart "Issue Distribution (True/False)") ;;
  (if Nat.eqb (List.length df) 0 then raise ZeroDivisionError else ret tt) ;;
  emit (st_plotly_chart "Distribution of Issues (% of Total Campaigns)").

(** The second and third tabs, lines 146 to 264. *)
Definition page_analysis (df : list Flagged) : Script unit :=
  emit (st_subheader "Page-wise Analysis") ;;
  emit (st_dataframe (MetricsTable (page_metrics df))) ;;
  emit (st_plotly_chart "Fill Rate by Page (%)") ;;
  emit (st_plotly_chart "Issue Rates by Page (%)").

Definition property_analysis (df : list Flagged) : Script unit :=
  emit (st_subheader "Property-wise Analysis") ;;
  emit (st_dataframe (MetricsTable (property_metrics df))) ;;
  emit (st_plotly_chart "Fill Rate by Property (%)") ;;
  emit (st_plotly_chart "Issue Rates by Property (%)").

(** Lines 102 to 264. *)
Definition analysis (df : list Flagged) : Script unit :=
  emit (st_header "True/False Analysis") ;;
  emit (st_tabs ["Issue Distribution"; "Page Analysis"; "Property Analysis"]%string) ;;
  issue_distribution df ;;
  page_analysis df ;;
  property_analysis df.

(** The body of the [try], lines 21 to 264. *)
Definition body (u : Upload) : Script unit :=
  rows <- normalize_dates u ;;
  df <- flag_engine u rows ;;
  show_metrics df ;;
  show_data u df ;;
  analysis df.

(** The [except] block, lines 266 to 274. *)
Definition handler (e : Exception) : Script unit :=
  emit (st_exception "Error processing data: " e) ;;
  emit (st_write "Please make sure your CSV file has the required columns:") ;;
  emit (st_write (bullets required_columns)) ;;
  emit (st_error "Date format issue detected. Your dates should be in a standard format like:") ;;
  emit (st_write "- DD-MM-YYYY (e.g., 13-01-2025)") ;;
  emit (st_write "- MM-DD-YYYY (e.g., 01-13-2025)") ;;
  emit (st_write "- YYYY-MM-DD (e.g., 2025-01-13)").

(** The branch [uploaded_file is not None]: everything the page shows. *)
Definition process (u : Upload) : list Event :=
  fst (try_except (body u) handler).

(** The flagged table of a file that has all its columns. *)
Definition flagged_table (u : Upload) : list Flagged :=
  add_flags (map (normalize_row u) (records u)).
End Script.

(** An instance of the parser for the examples: it reads the day-first
    form DD-MM-YYYY (as in [sample_data]) and nothing else. *)
Definition digit (c : ascii) : option Z :=
  let n := Z.of_nat (nat_of_ascii c) in
  if (48 <=? n) && (n <=? 57) then Some (n - 48) else None.

Fixpoint number (acc : Z) (s : list ascii) : option Z :=
  match s with
  | [] => Some acc
  | c :: s' =>
      match digit c with
      | Some d => number (10 * acc + d) s'
      | None => None
      end
  end.

(** Days from 1970-01-01 to the given civil date. *)
Definition days_from_civil (y m d : Z) : Z :=
  let y' := if m <=? 2 then y - 1 else y in
  let era := y' / 400 in
  let yoe := y' - era * 400 in
  let doy := (153 * (if 2 <? m then m - 3 else m + 9) + 2) / 5 + d - 1 in
  let doe := yoe * 365 + yoe / 4 - yoe / 100 + doy in
  era * 146097 + doe - 719468.

Definition dayfirst_parser (s : string) : option Timestamp :=
  match list_ascii_of_string s with
  | [d1; d2; "-"%char; m1; m2; "-"%char; y1; y2; y3; y4] =>
      match number 0 [d1; d2], number 0 [m1; m2], number 0 [y1; y2; y3; y4] with
      | Some d, Some m, Some y =>
          if (1 <=? d) && (d <=? 31) && (1 <=? m) && (m <=? 12)
          then Some (days_from_civil y m d * 86400000000000)
          else None
      | _, _, _ => None
      end
  | _ => None
  end.

(* ================================================================= *)
(** ** Vocabulary of the further properties *)

(** The position of the fraction [num / den], in [0, 1), with respect to
    0 and 1/2: what the rounding of a mantissa looks at. *)
Definition location (num den : Z) : SpecFloat.location :=
  if num =? 0 then loc_Exact else loc_Inexact (2 * num ?= den).

(** The cell holds the value [v]. *)
Definition holds (v : string) (c : option string) : bool :=
  match c with
  | Some s => String.eqb v s
  | None => false
  end.

(** The event of line 267. *)
Definition is_exception (ev : Event) : bool :=
  match ev with
  | st_exception _ _ => true
  | _ => false
  end.

(** The value of a float multiplied by [2^s], for a scale [s] that makes
    it an integer: [scaled x s] is [x * 2^s]. *)
Definition scaled (x : F64.t) (s : Z) : Z :=
  match x with
  | S754_finite sign m e => cond_Zopp sign (Zpos m * 2 ^ (e + s))
  | _ => 0
  end.

(* ================================================================= *)
(** ** Vocabulary of the claims *)

(** The columns that lines 41 to 63 read. *)
Definition engine_columns : list string :=
  ["Page"; "Property"; "Goal Start Date"; "Goal End Date";
   "Booked Impressions"; "Delivered Impressions"; "Created Time"]%string.

(** The events that show a table, a download or a chart; those that show
    a result: a metric or one of the former; the warning of a date column. *)
Definition is_table (ev : Event) : bool :=
  match ev with
  | st_dataframe _ | st_download_button _ _ | st_plotly_chart _ => true
  | _ => false
  end.

Definition is_result (ev : Event) : bool :=
  match ev with
  | st_metric _ _ _ => true
  | _ => is_table ev
  end.

Definition is_warning (col : string) (ev : Event) : bool :=
  match ev with
  | st_warning msg => String.eqb msg (parse_warning col)
  | _ => false
  end.

(* ================================================================= *)
(** ** Sample files *)

(** A line of a CSV file whose four text fields are filled in. *)
Definition csv_line (lead line page property : string) (booked delivered : Z)
  (goal_start goal_end created : string) : RawRow :=
  mkRow (Some lead) (Some line) (Some page) (Some property)
        booked delivered goal_start goal_end created.

(** A file whose first line has an unreadable creation time. *)
Definition unreadable_upload : Upload :=
  mkUpload required_columns
    [csv_line "L001" "LI001" "Homepage" "Website A" 500000 480000
              "13-01-2025" "31-01-2025" "sometime in December";
     csv_line "L002" "LI002" "Article" "Website B" 700000 600000
              "15-01-2025" "15-02-2025" "14-01-2025"].

(** A file whose column [Lead ID] is missing. *)
Definition no_lead_id_upload : Upload :=
  mkUpload ["Line item ID"; "Page"; "Property"; "Booked Impressions";
            "Delivered Impressions"; "Goal Start Date"; "Goal End Date";
            "Created Time"]%string
    [mkRow None (Some "LI001") (Some "Homepage") (Some "Website A")
           500000 450000 "13-01-2025" "31-01-2025" "25-12-2024";
     mkRow None (Some "LI002") (Some "Article") (Some "Website B")
           700000 600000 "15-01-2025" "15-02-2025" "14-01-2025"]%string.

(** The file of the example of the specification: two lines of the same
    slot, 900,000 and 700,000 impressions booked. *)
Definition overbooked_upload : Upload :=
  mkUpload required_columns
    [csv_line "L001" "LI001" "Homepage" "Website A" 900000 850000
              "13-01-2025" "31-01-2025" "25-12-2024";
     csv_line "L002" "LI002" "Homepage" "Website A" 700000 650000
              "13-01-2025" "31-01-2025" "26-12-2024"].

Definition overbooked_slot : GroupKey :=
  (Some "Homepage"%string, Some "Website A"%string,
   dayfirst_parser "13-01-2025", dayfirst_parser "31-01-2025").

(** A line after the date loop, its four text fields filled in. *)
Definition parsed_line (lead line page property : string) (booked delivered : Z)
  (goal_start goal_end created : option Timestamp) : Row :=
  mkRow (Some lead) (Some line) (Some page) (Some property)
        booked delivered goal_start goal_end created.

(** Three parsed lines, the first and the third in the same slot. *)
Definition two_in_slot : list Row :=
  [parsed_line "L001" "LI001" "Homepage" "Website A" 900000 850000
               (Some 10) (Some 20) (Some 5);
   parsed_line "L002" "LI002" "Article" "Website B" 100 100
               (Some 10) (Some 20) (Some 5);
   parsed_line "L003" "LI003" "Homepage" "Website A" 700000 10
               (Some 10) (Some 20) (Some 15)].

(** A line that books nothing and delivers 5 impressions. *)
Definition nothing_booked : Row :=
  parsed_line "L001" "LI001" "Homepage" "Website A" 0 5
              (Some 10) (Some 20) (Some 5).

(** A file whose only page has nothing booked and 100 impressions
    delivered. *)
Definition unbooked_upload : Upload :=
  mkUpload required_columns
    [csv_line "L001" "LI001" "Homepage" "Website A" 0 100
              "13-01-2025" "31-01-2025" "25-12-2024"].

(** A line delivered in full and booked after its goal period began. *)
Definition late_booking : Row :=
  parsed_line "L009" "LI009" "Homepage" "Website A" 500000 500000
              (Some 10) (Some 20) (Some 15).

(** Four parsed lines with empty fields: the first has no lead, the third
    no page, the fourth no property. *)
Definition empty_fields : list Row :=
  [mkRow None (Some "LI001") (Some "Homepage") (Some "Website A")
         500000 450000 (Some 10) (Some 20) (Some 5);
   mkRow (Some "L002") (Some "LI002") (Some "Homepage") (Some "Website A")
         700000 600000 (Some 10) (Some 20) (Some 5);
   mkRow (Some "L003") (Some "LI003") None (Some "Website B")
         400000 350000 (Some 10) (Some 20) (Some 5);
   mkRow (Some "L004") (Some "LI004") (Some "Article") None
         300000 300000 (Some 10) (Some 20) (Some 5)]%string.


(** A file with its nine columns and no line. *)
Definition header_only_upload : Upload := mkUpload required_columns [].


(* ================================================================= *)
(** * Properties *)

(** ** The orders are total orders *)

Lemma string_compare_refl (s : string) : String.compare s s = Eq.
Proof.
  induction s as [|c s IH]; simpl; [reflexivity|].
  unfold Ascii.compare. now rewrite N.compare_refl.
Qed.

Lemma string_compare_trans (a b c : string) :
  String.compare a b = Lt -> String.compare b c = Lt -> String.compare a c = Lt.
Proof.
  revert b c. induction a as [|x a IH]; intros [|y b] [|z c]; simpl;
    try discriminate; auto.
  unfold Ascii.compare.
  destruct (N.compare_spec (N_of_ascii x) (N_of_ascii y)) as [Exy|Lxy|Gxy];
    try discriminate;
    destruct (N.compare_spec (N_of_ascii y) (N_of_ascii z)) as [Eyz|Lyz|Gyz];
    try discriminate; intros Hab Hbc.
  - rewrite Exy, Eyz, N.compare_refl. eauto.
  - replace (N_of_ascii x ?= N_of_ascii z)%N with Lt; [reflexivity|].
    symmetry. apply N.compare_lt_iff. lia.
  - replace (N_of_ascii x ?= N_of_ascii z)%N with Lt; [reflexivity|].
    symmetry. apply N.compare_lt_iff. lia.
  - replace (N_of_ascii x ?= N_of_ascii z)%N with Lt; [reflexivity|].
    symmetry. apply N.compare_lt_iff. lia.
Qed.

#[export] Instance OrdLaws_Z : OrdLaws Z.
Proof.
  split; unfold cmp, Ord_Z.
  - intros a b. apply Z.compare_eq_iff.
  - intros a b. apply Z.compare_antisym.
  - intros a b c. rewrite !Z.compare_lt_iff. lia.
Qed.

#[export] Instance OrdLaws_string : OrdLaws string.
Proof.
  split; unfold cmp, Ord_string.
  - intros a b. split; [apply String.compare_eq_iff|].
    intros ->. apply string_compare_refl.
  - intros a b. apply String.compare_antisym.
  - apply string_compare_trans.
Qed.

#[export] Instance OrdLaws_option {K} `{OrdLaws K} : OrdLaws (option K).
Proof.
  split.
  - intros [a|] [b|]; try (split; [discriminate|congruence]).
    + change (cmp (Some a) (Some b)) with (cmp a b).
      rewrite cmp_eq. split; congruence.
    + split; reflexivity.
  - intros [a|] [b|]; try reflexivity.
    apply (cmp_antisym a b).
  - intros [a|] [b|] [c|]; try discriminate; try reflexivity.
    apply (cmp_trans a b c).
Qed.

#[export] Instance OrdLaws_prod {K1 K2} `{OrdLaws K1} `{OrdLaws K2}
  : OrdLaws (K1 * K2).
Proof.
  assert (unfold_cmp : forall a b : K1 * K2,
             cmp a b = match cmp (fst a) (fst b) with
                       | Eq => cmp (snd a) (snd b)
                       | c => c
                       end) by reflexivity.
  split.
  - intros [a1 a2] [b1 b2]. rewrite unfold_cmp. simpl.
    destruct (cmp a1 b1) eqn:E1.
    + apply cmp_eq in E1. subst. rewrite cmp_eq. split; congruence.
    + split; [discriminate|]. intros [= -> _].
      assert (E : cmp b1 b1 = Eq) by now apply cmp_eq. congruence.
    + split; [discriminate|]. intros [= -> _].
      assert (E : cmp b1 b1 = Eq) by now apply cmp_eq. congruence.
  - intros [a1 a2] [b1 b2]. rewrite !unfold_cmp. simpl.
    rewrite (cmp_antisym a1 b1).
    destruct (cmp a1 b1); simpl; auto. apply cmp_antisym.
  - intros [a1 a2] [b1 b2] [c1 c2]. rewrite !unfold_cmp. simpl.
    destruct (cmp a1 b1) eqn:E1; try discriminate;
      destruct (cmp b1 c1) eqn:E2; try discriminate; intros Hab Hbc.
    + apply cmp_eq in E1, E2. subst.
      assert (E : cmp c1 c1 = Eq) by now apply cmp_eq.
      rewrite E. eapply cmp_trans; eauto.
    + apply cmp_eq in E1. subst. now rewrite E2.
    + apply cmp_eq in E2. subst. now rewrite E1.
    + now rewrite (cmp_trans _ _ _ E1 E2).
Qed.

Section OrdFacts.
Context {K : Type} `{OrdLaws K}.

Lemma cmp_refl (a : K) : cmp a a = Eq.
Proof. now apply cmp_eq. Qed.

Lemma cmp_eqb_true (a b : K) : cmp_eqb a b = true <-> a = b.
Proof.
  unfold cmp_eqb. rewrite <- cmp_eq.
  destruct (cmp a b); split; congruence.
Qed.

Lemma cmp_eqb_refl (a : K) : cmp_eqb a a = true.
Proof. now apply cmp_eqb_true. Qed.

Lemma cmp_eqb_false (a b : K) : cmp_eqb a b = false <-> a <> b.
Proof.
  rewrite <- cmp_eqb_true. destruct (cmp_eqb a b); split; congruence.
Qed.

Lemma cmp_gt_lt (a b : K) : cmp a b = Gt -> cmp b a = Lt.
Proof. intros E. now rewrite cmp_antisym, E. Qed.

Lemma cmp_lt_neq (a b : K) : cmp a b = Lt -> cmp_eqb b a = false.
Proof.
  intros E. apply cmp_eqb_false. intros ->.
  rewrite cmp_refl in E. discriminate.
Qed.
End OrdFacts.

(** ** groupby and merge *)

Section GroupByFacts.
Context {K : Type} `{OrdLaws K}.

Lemma sorted_keys_map {V W} (f : K * V -> W) (g : list (K * V)) :
  sorted_keys g -> sorted_keys (map (fun kv => (fst kv, f kv)) g).
Proof.
  unfold sorted_keys. rewrite map_map. simpl. auto.
Qed.

Lemma find_above {V} (k : K) (g : list (K * V)) :
  Forall (fun k' => cmp k k' = Lt) (map fst g) ->
  find (fun kv => cmp_eqb k (fst kv)) g = None.
Proof.
  induction g as [|[k0 v] g IH]; simpl; [reflexivity|].
  intros Hall. inversion Hall as [|? ? Hlt Hrest]; subst.
  unfold cmp_eqb at 1. rewrite Hlt. auto.
Qed.

Lemma filter_above {V} (k : K) (g : list (K * V)) :
  Forall (fun k' => cmp k k' = Lt) (map fst g) ->
  filter (fun kv => cmp_eqb k (fst kv)) g = [].
Proof.
  induction g as [|[k0 v] g IH]; simpl; [reflexivity|].
  intros Hall. inversion Hall as [|? ? Hlt Hrest]; subst.
  unfold cmp_eqb at 1. rewrite Hlt. auto.
Qed.

(** Under a key, a sorted frame has at most one line. *)
Lemma filter_sorted_keys {V} (k : K) (g : list (K * V)) :
  sorted_keys g ->
  filter (fun kv => cmp_eqb k (fst kv)) g =
  match find (fun kv => cmp_eqb k (fst kv)) g with
  | Some kv => [kv]
  | None => []
  end.
Proof.
  unfold sorted_keys.
  induction g as [|[k0 v] g IH]; simpl; [reflexivity|].
  intros Hs. apply StronglySorted_inv in Hs as [Hs Hall].
  destruct (cmp_eqb k k0) eqn:E.
  - apply cmp_eqb_true in E. subst k0.
    now rewrite filter_above.
  - auto.
Qed.

Lemma merge_left_lookup {L V} (key : L -> K) (left : list L)
      (right : list (K * V)) :
  sorted_keys right ->
  merge_left key left right = map (fun l => (l, lookup (key l) right)) left.
Proof.
  intros Hs.
  induction left as [|l left IH]; [reflexivity|].
  change (merge_left key (l :: left) right)
    with (match filter (fun kv => cmp_eqb (key l) (fst kv)) right with
          | [] => [(l, None)]
          | matches => map (fun kv => (l, Some (snd kv))) matches
          end ++ merge_left key left right).
  rewrite IH, filter_sorted_keys by assumption.
  unfold lookup. simpl. now destruct (find _ right).
Qed.

Context {A : Type}.
Implicit Types (g : list (K * list A)) (k : K) (a : A).

Lemma add_to_group_keys k a g :
  forall k', In k' (map fst (add_to_group k a g)) -> k' = k \/ In k' (map fst g).
Proof.
  induction g as [|[k0 rows] g IH]; simpl; intros k'.
  - intuition auto.
  - destruct (cmp k k0) eqn:E; simpl.
    + intuition auto.
    + intuition auto.
    + intros [<-|Hin]; [tauto|]. apply IH in Hin. tauto.
Qed.

Lemma add_to_group_sorted k a g :
  sorted_keys g -> sorted_keys (add_to_group k a g).
Proof.
  unfold sorted_keys.
  induction g as [|[k0 rows] g IH]; simpl; intros Hs.
  - repeat constructor.
  - apply StronglySorted_inv in Hs as Hinv. destruct Hinv as [Hs' Hall].
    destruct (cmp k k0) eqn:E; simpl.
    + assumption.
    + constructor; [assumption|].
      constructor; [assumption|].
      eapply Forall_impl; [|exact Hall].
      intros k1 H1. simpl in H1. eapply cmp_trans; eauto.
    + constructor; [auto|].
      apply Forall_forall. intros k1 Hin.
      apply add_to_group_keys in Hin as [->|Hin].
      * now apply cmp_gt_lt.
      * rewrite Forall_forall in Hall. auto.
Qed.

Lemma groupby_sorted (key : A -> K) (na : K -> bool) (l : list A) :
  sorted_keys (groupby key na l).
Proof.
  induction l as [|a l IH]; simpl.
  - constructor.
  - destruct (na (key a)); [assumption|]. now apply add_to_group_sorted.
Qed.

Lemma find_add_to_group k a g k' :
  sorted_keys g ->
  find (fun kv => cmp_eqb k' (fst kv)) (add_to_group k a g) =
  if cmp_eqb k' k
  then Some (k, a :: match find (fun kv => cmp_eqb k' (fst kv)) g with
                     | Some kv => snd kv
                     | None => []
                     end)
  else find (fun kv => cmp_eqb k' (fst kv)) g.
Proof.
  unfold sorted_keys.
  induction g as [|[k0 rows] g IH]; simpl; intros Hs.
  - now destruct (cmp_eqb k' k).
  - apply StronglySorted_inv in Hs as [Hs Hall].
    destruct (cmp k k0) eqn:E; simpl.
    + apply cmp_eq in E. subst k0. now destruct (cmp_eqb k' k).
    + destruct (cmp_eqb k' k) eqn:E'; [|reflexivity].
      apply cmp_eqb_true in E'. subst k'.
      unfold cmp_eqb at 1. rewrite E.
      rewrite find_above; [reflexivity|].
      eapply Forall_impl; [|exact Hall].
      intros k1 H1. simpl in H1. eapply cmp_trans; eauto.
    + destruct (cmp_eqb k' k0) eqn:E0.
      * apply cmp_eqb_true in E0. subst k'.
        assert (Hne : cmp_eqb k0 k = false)
          by (unfold cmp_eqb; now rewrite (cmp_gt_lt _ _ E)).
        now rewrite Hne.
      * auto.
Qed.

(** The group found under a key holds the rows of the table that have this
    key, in the order of the table. *)
Lemma find_groupby (key : A -> K) (na : K -> bool) (l : list A) k :
  find (fun kv => cmp_eqb k (fst kv)) (groupby key na l) =
  match filter (fun a => negb (na (key a)) && cmp_eqb k (key a)) l with
  | [] => None
  | rows => Some (k, rows)
  end.
Proof.
  induction l as [|a l IH]; simpl; [reflexivity|].
  destruct (na (key a)) eqn:Ena; simpl; [assumption|].
  rewrite find_add_to_group by apply groupby_sorted.
  destruct (cmp_eqb k (key a)) eqn:E; [|assumption].
  apply cmp_eqb_true in E. rewrite IH, <- E.
  now destruct (filter _ l).
Qed.
End GroupByFacts.

(** ** Flag engine *)

Lemma filter_map_comm {A B} (f : A -> B) (p : B -> bool) (l : list A) :
  filter p (map f l) = map f (filter (fun a => p (f a)) l).
Proof.
  induction l as [|a l IH]; simpl; [reflexivity|].
  destruct (p (f a)); simpl; now rewrite IH.
Qed.

Lemma find_map_keys {K V W} `{Ord K} (f : K * V -> W) (k : K)
      (g : list (K * V)) :
  find (fun kv => cmp_eqb k (fst kv)) (map (fun kv => (fst kv, f kv)) g) =
  option_map (fun kv => (fst kv, f kv)) (find (fun kv => cmp_eqb k (fst kv)) g).
Proof.
  induction g as [|kv g IH]; simpl; [reflexivity|].
  now destruct (cmp_eqb k (fst kv)).
Qed.

Lemma lookup_map {K V W} `{Ord K} (f : K * V -> W) (k : K) (g : list (K * V)) :
  lookup k (map (fun kv => (fst kv, f kv)) g) =
  option_map f (find (fun kv => cmp_eqb k (fst kv)) g).
Proof.
  unfold lookup. rewrite find_map_keys. now destruct (find _ g).
Qed.

(** The rows that [groupby] puts under a key are the rows that share it,
    unless the key has a missing value. *)
Lemma group_filter (rows : list Row) (k : GroupKey) :
  filter (fun r => negb (group_key_na (group_key r)) && cmp_eqb k (group_key r)) rows =
  if group_key_na k then [] else same_group rows k.
Proof.
  unfold same_group.
  destruct (group_key_na k) eqn:Ena.
  - induction rows as [|r rows IH]; cbn [filter]; [reflexivity|].
    destruct (cmp_eqb k (group_key r)) eqn:E.
    + apply cmp_eqb_true in E. rewrite <- E, Ena. exact IH.
    + rewrite andb_false_r. exact IH.
  - apply filter_ext_in. intros r _.
    destruct (cmp_eqb k (group_key r)) eqn:E.
    + apply cmp_eqb_true in E. now rewrite <- E, Ena.
    + apply andb_false_r.
Qed.

Lemma grouped_sorted (df : list (Row * bool)) : sorted_keys (grouped df).
Proof.
  unfold grouped, grouped_sum.
  apply (sorted_keys_map (fun g => PAGE_CAPACITY <? snd g)).
  apply (sorted_keys_map
           (fun g => int64_sum (map (fun r => Booked_Impressions (fst r)) (snd g)))).
  apply groupby_sorted.
Qed.

Lemma lookup_grouped (rows : list Row) (k : GroupKey) :
  lookup k (grouped (map (fun r => (r, false)) rows)) = merged_flag rows k.
Proof.
  unfold grouped, grouped_sum, merged_flag.
  rewrite (lookup_map (fun g => PAGE_CAPACITY <? snd g)).
  rewrite (find_map_keys
             (fun g => int64_sum (map (fun r => Booked_Impressions (fst r)) (snd g)))).
  rewrite find_groupby, filter_map_comm. simpl.
  rewrite group_filter.
  destruct (group_key_na k); [reflexivity|].
  destruct (same_group rows k) as [|r g]; [reflexivity|].
  simpl. now rewrite map_map.
Qed.

(** The flagged table, line by line: the merge neither drops nor repeats a
    row, the column [Overbooking] is the constant one of line 41, and the
    flag of the group arrives in [Overbooking_grouped]. *)
Lemma add_flags_rows (rows : list Row) :
  add_flags rows =
  map (fun r => mkFlagged r false (merged_flag rows (group_key r))
                          (underdelivery r) (sla_breach r)) rows.
Proof.
  unfold add_flags.
  rewrite merge_left_lookup by apply grouped_sorted.
  rewrite !map_map. apply map_ext. intros r. simpl.
  now rewrite lookup_grouped.
Qed.

Lemma add_flags_base (rows : list Row) : map base (add_flags rows) = rows.
Proof.
  rewrite add_flags_rows, map_map. simpl. apply map_id.
Qed.

Lemma in_add_flags (rows : list Row) (f : Flagged) :
  In f (add_flags rows) <->
  In (base f) rows /\
  f = mkFlagged (base f) false (merged_flag rows (group_key (base f)))
                (underdelivery (base f)) (sla_breach (base f)).
Proof.
  rewrite add_flags_rows, in_map_iff. split.
  - intros (r & <- & Hin). simpl. auto.
  - intros (Hin & Hf). exists (base f). auto.
Qed.

(** ** The script *)

Lemma emit_all_events (evs : list Event) :
  emit_all evs = (evs, inr tt).
Proof.
  induction evs as [|ev evs IH]; [reflexivity|].
  simpl. unfold bind. simpl. now rewrite IH.
Qed.

Section ScriptFacts.
Variable to_datetime : string -> option Timestamp.

Lemma normalize_dates_run (u : Upload) :
  normalize_dates to_datetime u =
  (flat_map (column_warning to_datetime u) date_columns,
   inr (map (normalize_row to_datetime u) (records u))).
Proof.
  unfold normalize_dates. rewrite emit_all_events.
  unfold bind, ret. simpl. now rewrite app_nil_r.
Qed.

Lemma flag_engine_run (u : Upload) (rows : list Row) :
  flag_engine u rows =
  match find (fun c => negb (has_column u c)) engine_columns with
  | Some c => raise (KeyError [c])
  | None => ret (add_flags rows)
  end.
Proof.
  unfold flag_engine, getitem, engine_columns. cbn [find].
  repeat match goal with
         | |- context [has_column u ?c] =>
             destruct (has_column u c); [|reflexivity]
         end.
  reflexivity.
Qed.

Lemma show_data_run (u : Upload) (df : list Flagged) :
  show_data u df =
  match filter (fun c => negb (has_column u c)) ["Lead ID"; "Line item ID";
          "Page"; "Property"; "Booked Impressions"; "Delivered Impressions"]%string with
  | [] => ([st_header "Campaign Data";
            st_dataframe (CampaignData (map show df));
            st_download_button "Download data as CSV" (map show df)], inr tt)
  | missing => ([st_header "Campaign Data"], inl (KeyError missing))
  end.
Proof.
  unfold show_data, getitems, show_columns.
  assert (Hhas : forall c,
             has_column (mkUpload (columns u ++ added_columns) (records u)) c
             = has_column u c || existsb (String.eqb c) added_columns).
  { intros c. unfold has_column. simpl. apply existsb_app. }
  cbn [filter]. rewrite !Hhas.
  cbn [added_columns existsb].
  repeat match goal with
         | |- context [String.eqb ?a ?b] =>
             let v := eval vm_compute in (String.eqb a b) in
             change (String.eqb a b) with v
         end.
  cbn [orb negb].
  rewrite !orb_false_r, !orb_true_r. cbn [negb].
  repeat match goal with
         | |- context [has_column u ?c] => destruct (has_column u c)
         end; reflexivity.
Qed.

Lemma bind_ok {A B} (evs : list Event) (a : A) (f : A -> Script B) :
  bind (evs, inr a) f = (evs ++ fst (f a), snd (f a)).
Proof. reflexivity. Qed.

Lemma bind_err {A B} (evs : list Event) (e : Exception) (f : A -> Script B) :
  bind (evs, inl e) f = (evs, inl e).
Proof. reflexivity. Qed.

Lemma bind_ret_l {A B} (a : A) (f : A -> Script B) : bind (ret a) f = f a.
Proof. unfold bind, ret. simpl. now destruct (f a). Qed.

Lemma show_metrics_run (df : list Flagged) :
  show_metrics df = (fst (show_metrics df), inr tt) /\
  existsb is_result (fst (show_metrics df)) = true /\
  forallb (fun ev => negb (is_table ev)) (fst (show_metrics df)) = true.
Proof. repeat split. Qed.

Lemma engine_columns_present (u : Upload) :
  find (fun c => negb (has_column u c)) engine_columns = None ->
  forall c, In c engine_columns -> has_column u c = true.
Proof.
  intros Hfind c Hin.
  apply (find_none _ _ Hfind) in Hin. now apply negb_false_iff.
Qed.

Lemma body_run (u : Upload) :
  body to_datetime u =
  let warnings := flat_map (column_warning to_datetime u) date_columns in
  let df := flagged_table to_datetime u in
  match find (fun c => negb (has_column u c)) engine_columns with
  | Some c => (warnings, inl (KeyError [c]))
  | None =>
      match filter (fun c => negb (has_column u c)) ["Lead ID"; "Line item ID"]%string with
      | [] => (warnings ++ fst (show_metrics df) ++
               [st_header "Campaign Data";
                st_dataframe (CampaignData (map show df));
                st_download_button "Download data as CSV" (map show df)] ++
               fst (analysis df),
               snd (analysis df))
      | missing => (warnings ++ fst (show_metrics df) ++ [st_header "Campaign Data"],
                    inl (KeyError missing))
      end
  end.
Proof.
  unfold body. rewrite normalize_dates_run, bind_ok, flag_engine_run.
  fold (flagged_table to_datetime u).
  destruct (find _ engine_columns) as [c|] eqn:Hfind.
  - unfold raise. rewrite bind_err. cbn [fst snd]. now rewrite app_nil_r.
  - pose proof (engine_columns_present u Hfind) as Hall.
    rewrite bind_ret_l.
    destruct (show_metrics_run (flagged_table to_datetime u)) as (Hm & _ & _).
    rewrite Hm, bind_ok, show_data_run. cbn [filter fst].
    repeat match goal with
           | |- context [has_column u ?c] =>
               rewrite (Hall c) by (unfold engine_columns; simpl; auto 10)
           end.
    cbn [negb].
    destruct (has_column u "Lead ID"), (has_column u "Line item ID");
      cbn [negb]; rewrite ?bind_ok, ?bind_err; cbn [fst snd];
      rewrite ?app_nil_r; reflexivity.
Qed.
End ScriptFacts.

(** ** The claims on the flags *)

(** The column [Overbooking] that the table carries is the one of line 41. *)
Lemma Overbooking_false (rows : list Row) (f : Flagged) :
  In f (add_flags rows) -> Overbooking f = false.
Proof.
  intros Hin. apply in_add_flags in Hin as [_ ->]. reflexivity.
Qed.

Lemma Overbooking_grouped_spec (rows : list Row) (f : Flagged) :
  In f (add_flags rows) ->
  Overbooking_grouped f = merged_flag rows (group_key (base f)).
Proof.
  intros Hin. apply in_add_flags in Hin as [_ ->]. reflexivity.
Qed.

(** *** Overbooking *)

(** C1. On the two lines of [overbooked_upload] the slot holds 1,600,000
    booked impressions, above the capacity of 1,500,000, and the merge does
    find the flag of the slot true; yet the column [Overbooking] that is
    displayed and exported is false on both lines: the merge leaves the
    constant column of line 41 in place and puts the computed flag in
    [Overbooking_grouped], which nothing reads. *)
Theorem overbooking_not_broadcast :
  let rows := map (normalize_row dayfirst_parser overbooked_upload)
                  (records overbooked_upload) in
  let shown := map show (flagged_table dayfirst_parser overbooked_upload) in
  map group_key rows = [overbooked_slot; overbooked_slot] /\
  booked_in_group rows overbooked_slot = 1600000 /\
  PAGE_CAPACITY < booked_in_group rows overbooked_slot /\
  In (st_dataframe (CampaignData shown))
     (process dayfirst_parser overbooked_upload) /\
  In (st_download_button "Download data as CSV" shown)
     (process dayfirst_parser overbooked_upload) /\
  map shown_Overbooking shown = [false; false] /\
  map Overbooking_grouped (flagged_table dayfirst_parser overbooked_upload)
  = [Some true; Some true].
Proof.
  vm_compute. repeat split; try reflexivity; intuition auto.
Qed.

(** *** Underdelivery *)

(** C3. The flagged table has the rows of the table, in their order, and on
    each of them [Underdelivery] is true exactly when the delivered
    impressions of that row are below its booked impressions. *)
Theorem underdelivery_per_row (rows : list Row) :
  map base (add_flags rows) = rows /\
  Forall (fun f => Underdelivery f = true <->
                   Delivered_Impressions (base f) < Booked_Impressions (base f))
         (add_flags rows).
Proof.
  split; [apply add_flags_base|].
  apply Forall_forall. intros f Hin.
  apply in_add_flags in Hin as [_ ->]. simpl.
  unfold underdelivery. apply Z.ltb_lt.
Qed.

Lemma underdelivery_per_row_witness :
  map base (add_flags two_in_slot) = two_in_slot /\
  map Underdelivery (add_flags two_in_slot) = [true; false; true].
Proof.
  split; [apply (underdelivery_per_row two_in_slot)|reflexivity].
Defined.

(** *** The group invariant *)

(** C5. Two rows of the flagged table that have the same group key carry
    the same [Overbooking] value, and the same value in the merged column
    [Overbooking_grouped]. *)
Theorem overbooking_uniform_in_group (rows : list Row) (f1 f2 : Flagged) :
  In f1 (add_flags rows) -> In f2 (add_flags rows) ->
  group_key (base f1) = group_key (base f2) ->
  Overbooking f1 = Overbooking f2 /\
  Overbooking_grouped f1 = Overbooking_grouped f2.
Proof.
  intros H1 H2 Hkey. split.
  - now rewrite (Overbooking_false rows f1), (Overbooking_false rows f2).
  - rewrite (Overbooking_grouped_spec rows f1), (Overbooking_grouped_spec rows f2)
      by assumption.
    now rewrite Hkey.
Qed.

Lemma overbooking_uniform_in_group_witness :
  exists f1 f2 f3,
    add_flags two_in_slot = [f1; f2; f3] /\
    group_key (base f1) = group_key (base f3) /\
    Overbooking f1 = Overbooking f3 /\
    Overbooking_grouped f1 = Overbooking_grouped f3.
Proof.
  do 3 eexists. split; [reflexivity|]. split; [reflexivity|].
  apply (overbooking_uniform_in_group two_in_slot).
  - vm_compute. auto.
  - vm_compute. auto.
  - reflexivity.
Defined.

(** *** Rows that book nothing *)

(** C7, as stated, fails: a row that books nothing and delivers 5 is not
    flagged, although its delivered impressions are not 0. *)
Lemma zero_booked_counterexample :
  exists f, add_flags [nothing_booked] = [f] /\
            Booked_Impressions (base f) = 0 /\
            ~ (Underdelivery f = false <-> Delivered_Impressions (base f) = 0).
Proof.
  eexists. split; [reflexivity|]. split; [reflexivity|].
  simpl. intros [H _]. specialize (H eq_refl). discriminate.
Qed.

(** C7, amended. On a row that books nothing, [Underdelivery] is false
    exactly when the delivered impressions are not negative: it is false
    when they are 0 and when they are positive alike. The flag is computed
    by a total function, nothing is raised. *)
Theorem zero_booked_underdelivery (rows : list Row) (f : Flagged) :
  In f (add_flags rows) ->
  Booked_Impressions (base f) = 0 ->
  (Underdelivery f = false <-> 0 <= Delivered_Impressions (base f)).
Proof.
  intros Hin Hb. apply in_add_flags in Hin as [_ ->]. simpl.
  unfold underdelivery. rewrite Hb. apply Z.ltb_ge.
Qed.

Lemma zero_booked_underdelivery_witness :
  exists f, add_flags [nothing_booked] = [f] /\
            (Underdelivery f = false <-> 0 <= Delivered_Impressions (base f)).
Proof.
  eexists. split; [reflexivity|].
  apply (zero_booked_underdelivery [nothing_booked]).
  - vm_compute. auto.
  - reflexivity.
Defined.

(** *** Missing dates *)

(** C8. On a row whose creation time or goal start date is missing, the
    lateness comparison is false, and the row is flagged [SLA_Breach] only
    if its delivery is under the threshold. *)
Theorem missing_date_not_late (rows : list Row) (f : Flagged) :
  In f (add_flags rows) ->
  Created_Time (base f) = None \/ Goal_Start_Date (base f) = None ->
  late_start (base f) = false /\
  SLA_Breach f = under_threshold (base f).
Proof.
  intros Hin Hna.
  assert (Hlate : late_start (base f) = false).
  { unfold late_start, date_gt.
    destruct Hna as [-> | ->]; [reflexivity|].
    now destruct (Created_Time (base f)). }
  split; [exact Hlate|].
  apply in_add_flags in Hin as [_ ->]. simpl in *.
  unfold sla_breach. rewrite Hlate. apply orb_false_r.
Qed.

Lemma missing_date_not_late_witness :
  exists f, hd_error (flagged_table dayfirst_parser unreadable_upload) = Some f /\
            Created_Time (base f) = None /\
            late_start (base f) = false /\
            SLA_Breach f = under_threshold (base f).
Proof.
  eexists. split; [reflexivity|]. split; [reflexivity|].
  apply (missing_date_not_late
           (map (normalize_row dayfirst_parser unreadable_upload)
                (records unreadable_upload))).
  - vm_compute. auto.
  - left. reflexivity.
Defined.

(** *** Rollups *)

(** C4. On a file whose only page has nothing booked and 100 impressions
    delivered, the fill rate of the page, and of the property, is the
    infinity that the division by zero returns, not 0 and not NaN; the
    global fill rate of the same table is guarded and is 0. *)
Theorem group_fill_rate_unguarded :
  let df := flagged_table dayfirst_parser unbooked_upload in
  In (st_dataframe (MetricsTable (page_metrics df)))
     (process dayfirst_parser unbooked_upload) /\
  In (st_dataframe (MetricsTable (property_metrics df)))
     (process dayfirst_parser unbooked_upload) /\
  map (fun m => (dimension m, Booked_sum m, Delivered_sum m, Fill_Rate m))
      (page_metrics df) = [("Homepage"%string, 0, 100, F64.inf)] /\
  map (fun m => (dimension m, Booked_sum m, Delivered_sum m, Fill_Rate m))
      (property_metrics df) = [("Website A"%string, 0, 100, F64.inf)] /\
  F64.inf <> F64.zero /\ F64.is_nan F64.inf = false /\
  fill_rate df = F64.zero.
Proof.
  vm_compute.
  repeat match goal with |- _ /\ _ => split end;
    try reflexivity; try discriminate.
  - repeat (first [left; reflexivity | right]).
  - repeat (first [left; reflexivity | right]).
Qed.

(** ** The claims on the script *)

Section ScriptClaims.
Variable to_datetime : string -> option Timestamp.

Lemma handler_run (e : Exception) :
  handler e =
  ([st_exception "Error processing data: " e;
    st_write "Please make sure your CSV file has the required columns:";
    st_write (bullets required_columns);
    st_error "Date format issue detected. Your dates should be in a standard format like:";
    st_write "- DD-MM-YYYY (e.g., 13-01-2025)";
    st_write "- MM-DD-YYYY (e.g., 01-13-2025)";
    st_write "- YYYY-MM-DD (e.g., 2025-01-13)"], inr tt).
Proof. reflexivity. Qed.

Lemma column_warning_cases (u : Upload) (col : string * (RawRow -> string)) :
  column_warning to_datetime u col = [] \/
  column_warning to_datetime u col = [st_warning (parse_warning (fst col))].
Proof.
  unfold column_warning. destruct (_ && _); auto.
Qed.

Lemma warnings_only (u : Upload) :
  Forall (fun ev => exists col, In col date_columns /\
                                ev = st_warning (parse_warning (fst col)))
         (flat_map (column_warning to_datetime u) date_columns).
Proof.
  apply Forall_forall. intros ev Hin.
  apply in_flat_map in Hin as (col & Hcol & Hin).
  exists col. split; [assumption|].
  destruct (column_warning_cases u col) as [E|E]; rewrite E in Hin.
  - destruct Hin.
  - destruct Hin as [<-|[]]. reflexivity.
Qed.

Lemma warnings_not_results (u : Upload) :
  forallb (fun ev => negb (is_result ev))
          (flat_map (column_warning to_datetime u) date_columns) = true.
Proof.
  apply forallb_forall. intros ev Hin.
  pose proof (warnings_only u) as Hw. rewrite Forall_forall in Hw.
  destruct (Hw ev Hin) as (col & _ & ->). reflexivity.
Qed.

Lemma not_result_not_table (evs : list Event) :
  forallb (fun ev => negb (is_result ev)) evs = true ->
  forallb (fun ev => negb (is_table ev)) evs = true.
Proof.
  rewrite !forallb_forall. intros Hall ev Hin.
  specialize (Hall ev Hin). now destruct ev.
Qed.

Lemma warning_count (u : Upload) :
  Forall (fun col =>
            List.length (filter (is_warning (fst col))
                           (flat_map (column_warning to_datetime u) date_columns))
            = if has_column u (fst col) &&
                 existsb (fun r => isna (to_datetime (snd col r))) (records u)
              then 1%nat else 0%nat)
         date_columns.
Proof.
  unfold date_columns. cbn [flat_map]. unfold column_warning. cbn [fst snd].
  repeat constructor; cbn [fst snd];
    destruct (has_column u "Goal Start Date" && _);
    destruct (has_column u "Goal End Date" && _);
    destruct (has_column u "Created Time" && _);
    reflexivity.
Qed.

(** C9. The date loop raises nothing and keeps every line of the file; a
    cell of a date column that the file has is the timestamp read from its
    text, or the missing marker when the text cannot be read. For each of
    the three date columns, the loop shows one warning that names the
    column when the file has the column and at least one of its cells is
    missing after parsing, and none otherwise; it shows nothing else. The
    script goes on after the warnings: when the file has all its columns,
    the table of all the lines is displayed. *)
Theorem date_parse_is_not_fatal (u : Upload) :
  let run := normalize_dates to_datetime u in
  let rows := map (normalize_row to_datetime u) (records u) in
  snd run = inr rows /\
  List.length rows = List.length (records u) /\
  (has_column u "Goal Start Date" = true ->
   map Goal_Start_Date rows
   = map (fun r => to_datetime (Goal_Start_Date r)) (records u)) /\
  (has_column u "Goal End Date" = true ->
   map Goal_End_Date rows
   = map (fun r => to_datetime (Goal_End_Date r)) (records u)) /\
  (has_column u "Created Time" = true ->
   map Created_Time rows
   = map (fun r => to_datetime (Created_Time r)) (records u)) /\
  Forall (fun col =>
            List.length (filter (is_warning (fst col)) (fst run))
            = if has_column u (fst col) &&
                 existsb (fun r => isna (to_datetime (snd col r))) (records u)
              then 1%nat else 0%nat)
         date_columns /\
  Forall (fun ev => exists col, In col date_columns /\
                                ev = st_warning (parse_warning (fst col)))
         (fst run) /\
  (exists rest, process to_datetime u = fst run ++ rest) /\
  ((forall c, In c required_columns -> has_column u c = true) ->
   In (st_dataframe (CampaignData (map show (flagged_table to_datetime u))))
      (process to_datetime u)).
Proof.
  cbv zeta. rewrite normalize_dates_run. cbn [fst snd].
  split; [reflexivity|].
  split; [apply length_map|].
  split; [|split; [|split]].
  1-3: intros Hcol; rewrite map_map; apply map_ext; intros r;
       unfold normalize_row, parse_cell; cbn; now rewrite Hcol.
  split; [apply warning_count|].
  split; [apply warnings_only|].
  unfold process, try_except. rewrite body_run. cbv zeta.
  split.
  - destruct (find _ engine_columns).
    + cbn [fst snd]. eauto.
    + destruct (filter _ _).
      * cbn [fst snd]. destruct (snd (analysis _)); cbn [fst].
        -- rewrite <- app_assoc. eauto.
        -- eauto.
      * cbn [fst snd]. rewrite <- app_assoc. eauto.
  - intros Hall.
    assert (Hfind : find (fun c => negb (has_column u c)) engine_columns = None).
    { unfold engine_columns. cbn [find].
      rewrite !Hall by (unfold required_columns; simpl; auto 10).
      reflexivity. }
    rewrite Hfind. cbn [filter].
    rewrite !Hall by (unfold required_columns; simpl; auto 10).
    cbn [negb].
    assert (Hin : forall rest,
               In (st_dataframe (CampaignData (map show (flagged_table to_datetime u))))
                  (flat_map (column_warning to_datetime u) date_columns ++
                   fst (show_metrics (flagged_table to_datetime u)) ++
                   [st_header "Campaign Data";
                    st_dataframe (CampaignData (map show (flagged_table to_datetime u)));
                    st_download_button "Download data as CSV"
                      (map show (flagged_table to_datetime u))] ++ rest)).
    { intros rest. apply in_or_app. right. apply in_or_app. right.
      simpl. auto. }
    destruct (snd (analysis _)); cbn [fst snd].
    + rewrite !app_assoc. apply in_or_app. left. rewrite <- !app_assoc. apply Hin.
    + apply Hin.
Qed.

Lemma in_required_columns (c : string) :
  In c required_columns <->
  (c = "Lead ID" \/ c = "Line item ID")%string \/ In c engine_columns.
Proof.
  unfold required_columns, engine_columns. simpl. intuition auto.
Qed.

(** C10, amended. When the file lacks a required column, the run ends in
    the [except] block, which names the columns found missing at the
    access that failed and lists the nine expected columns; no table, no
    download and no chart is shown. When the missing column is one that the
    flags or the fill rate are computed from, no metric is shown either.
    When only [Lead ID] or [Line item ID] is missing, the overall fill rate
    and the four counters are on the page before the error. *)
Theorem missing_column_error (u : Upload) :
  (exists c, In c required_columns /\ has_column u c = false) ->
  exists shown missing,
    process to_datetime u = shown ++ fst (handler (KeyError missing)) /\
    missing <> [] /\
    Forall (fun c => In c required_columns /\ has_column u c = false) missing /\
    In (st_write (bullets required_columns)) (process to_datetime u) /\
    forallb (fun ev => negb (is_table ev)) shown = true /\
    ((exists c, In c engine_columns /\ has_column u c = false) ->
     forallb (fun ev => negb (is_result ev)) shown = true) /\
    ((forall c, In c engine_columns -> has_column u c = true) ->
     existsb is_result shown = true /\
     In (st_metric "Overall Fill Rate"
                   (Percent (fill_rate (flagged_table to_datetime u)))
                   (Some (if F64.eqb (fill_rate (flagged_table to_datetime u))
                                     (F64.of_int 100)
                          then Text "On Target"
                          else Percent (F64.sub (fill_rate (flagged_table to_datetime u))
                                                (F64.of_int 100)))))
        shown /\
     In (st_metric "Total Campaigns"
                   (Int (Z.of_nat (List.length (flagged_table to_datetime u)))) None)
        shown /\
     In (st_metric "Overbooking Issues"
                   (Int (count_true Overbooking (flagged_table to_datetime u))) None)
        shown /\
     In (st_metric "Underdelivery Issues"
                   (Int (count_true Underdelivery (flagged_table to_datetime u))) None)
        shown /\
     In (st_metric "SLA Breaches"
                   (Int (count_true SLA_Breach (flagged_table to_datetime u))) None)
        shown).
Proof.
  intros (c & Hreq & Habs).
  unfold process, try_except. rewrite body_run. cbv zeta.
  destruct (find _ engine_columns) as [c0|] eqn:Hfind.
  - apply find_some in Hfind as [Hin0 Habs0].
    apply negb_true_iff in Habs0.
    exists (flat_map (column_warning to_datetime u) date_columns), [c0].
    cbn [fst snd].
    split; [reflexivity|].
    split; [discriminate|].
    split.
    { constructor; [|constructor].
      split; [apply in_required_columns; auto|assumption]. }
    split. { apply in_or_app. right. rewrite handler_run. simpl. auto. }
    split. { apply not_result_not_table, warnings_not_results. }
    split. { intros _. apply warnings_not_results. }
    intros Hall. rewrite (Hall c0 Hin0) in Habs0. discriminate.
  - pose proof (engine_columns_present u Hfind) as Hall.
    assert (Hid : (c = "Lead ID" \/ c = "Line item ID")%string).
    { apply in_required_columns in Hreq as [Hid|Hin]; [assumption|].
      rewrite (Hall c Hin) in Habs. discriminate. }
    assert (Hmissing : In c (filter (fun c => negb (has_column u c))
                                    ["Lead ID"; "Line item ID"]%string)).
    { apply filter_In. split; [simpl; intuition auto|]. now rewrite Habs. }
    destruct (filter _ ["Lead ID"; "Line item ID"]%string) as [|m ms] eqn:Hf;
      [destruct Hmissing|].
    exists (flat_map (column_warning to_datetime u) date_columns ++
            fst (show_metrics (flagged_table to_datetime u)) ++
            [st_header "Campaign Data"]), (m :: ms).
    cbn [fst snd].
    split; [reflexivity|].
    split; [discriminate|].
    split.
    { apply Forall_forall. intros x Hx. rewrite <- Hf in Hx.
      apply filter_In in Hx as [Hx Hxabs]. apply negb_true_iff in Hxabs.
      split; [|assumption]. apply in_required_columns. left.
      simpl in Hx. intuition auto. }
    split. { apply in_or_app. right. rewrite handler_run. simpl. auto. }
    split.
    { rewrite !forallb_app.
      rewrite (not_result_not_table _ (warnings_not_results u)).
      reflexivity. }
    split.
    { intros (c1 & Hin1 & Habs1). rewrite (Hall c1 Hin1) in Habs1. discriminate. }
    intros _. split.
    + rewrite !existsb_app. cbn. now rewrite orb_true_r.
    + repeat split; apply in_or_app; right; simpl; auto 10.
Qed.
End ScriptClaims.

(** C10, as stated, fails: on a file without [Lead ID] the page shows the
    overall fill rate and the four counters before the error. *)
Lemma partial_results_counterexample :
  In "Lead ID"%string required_columns /\
  has_column no_lead_id_upload "Lead ID" = false /\
  In (st_metric "Total Campaigns" (Int 2) None)
     (process dayfirst_parser no_lead_id_upload) /\
  In (st_metric "Underdelivery Issues" (Int 2) None)
     (process dayfirst_parser no_lead_id_upload) /\
  existsb is_result (process dayfirst_parser no_lead_id_upload) = true /\
  In (st_exception "Error processing data: " (KeyError ["Lead ID"%string]))
     (process dayfirst_parser no_lead_id_upload).
Proof.
  vm_compute. intuition auto.
Qed.

Lemma missing_column_error_witness :
  exists shown missing,
    process dayfirst_parser no_lead_id_upload
    = shown ++ fst (handler (KeyError missing)) /\
    missing <> [] /\
    forallb (fun ev => negb (is_table ev)) shown = true.
Proof.
  destruct (missing_column_error dayfirst_parser no_lead_id_upload)
    as (shown & missing & Hrun & Hne & _ & _ & Htab & _).
  - exists "Lead ID"%string. split; [vm_compute; auto|reflexivity].
  - exists shown, missing. auto.
Defined.

Lemma date_parse_is_not_fatal_witness :
  snd (normalize_dates dayfirst_parser unreadable_upload)
  = inr (map (normalize_row dayfirst_parser unreadable_upload)
             (records unreadable_upload)) /\
  fst (normalize_dates dayfirst_parser unreadable_upload)
  = [st_warning (parse_warning "Created Time")] /\
  In (st_dataframe
        (CampaignData (map show (flagged_table dayfirst_parser unreadable_upload))))
     (process dayfirst_parser unreadable_upload).
Proof.
  destruct (date_parse_is_not_fatal dayfirst_parser unreadable_upload)
    as (Hrows & _ & _ & _ & _ & _ & _ & _ & Hshown).
  split; [exact Hrows|]. split; [reflexivity|].
  apply Hshown. intros c Hc. vm_compute in Hc.
  repeat (destruct Hc as [<-|Hc]; [reflexivity|]). destruct Hc.
Defined.

(* ================================================================= *)
(** * Further properties *)

(** ** Binary64 arithmetic *)

(** *** Arithmetic of scaled bounds *)

Lemma fraction_bound (r den num P : Z) :
  0 <= r < P -> 0 <= num < den -> 0 <= r * den + num < P * den.
Proof.
  intros Hr Hnum.
  assert (H0 : 0 <= r * den) by (apply Z.mul_nonneg_nonneg; lia).
  assert (H1 : (r + 1) * den <= P * den)
    by (apply Z.mul_le_mono_nonneg_r; lia).
  lia.
Qed.

Lemma scale_bounds (z k : Z) :
  1 <= k <= 53 -> 2 ^ (k - 1) <= z < 2 ^ k ->
  2 ^ 52 <= z * 2 ^ (53 - k) < 2 ^ 53.
Proof.
  intros Hk Hz.
  assert (Hs : 0 < 2 ^ (53 - k)) by (apply Z.pow_pos_nonneg; lia).
  assert (H52 : 2 ^ (k - 1) * 2 ^ (53 - k) = 2 ^ 52).
  { rewrite <- Z.pow_add_r by lia. f_equal. lia. }
  assert (H53 : 2 ^ k * 2 ^ (53 - k) = 2 ^ 53).
  { rewrite <- Z.pow_add_r by lia. f_equal. lia. }
  rewrite <- H52, <- H53. split.
  - apply Z.mul_le_mono_nonneg_r; lia.
  - apply Z.mul_lt_mono_pos_r; lia.
Qed.

(** *** Digits *)

Lemma digits2_pos_bounds (p : positive) :
  2 ^ (Zpos (digits2_pos p) - 1) <= Zpos p < 2 ^ Zpos (digits2_pos p).
Proof.
  induction p as [p IH|p IH|]; cbn [digits2_pos].
  - rewrite Pos2Z.inj_succ.
    replace (Z.succ (Zpos (digits2_pos p)) - 1)
      with (Z.succ (Zpos (digits2_pos p) - 1)) by lia.
    rewrite !Z.pow_succ_r by lia. lia.
  - rewrite Pos2Z.inj_succ.
    replace (Z.succ (Zpos (digits2_pos p)) - 1)
      with (Z.succ (Zpos (digits2_pos p) - 1)) by lia.
    rewrite !Z.pow_succ_r by lia. lia.
  - simpl. lia.
Qed.

Lemma digits2_pos_unique (p : positive) (k : Z) :
  2 ^ (k - 1) <= Zpos p < 2 ^ k -> Zpos (digits2_pos p) = k.
Proof.
  intros Hk. pose proof (digits2_pos_bounds p) as Hd.
  set (d := Zpos (digits2_pos p)) in *.
  assert (0 < k).
  { destruct (Z.le_gt_cases k 0) as [Hle|]; [|assumption].
    assert (2 ^ k <= 2 ^ 0) by (apply Z.pow_le_mono_r; lia).
    simpl in *. lia. }
  destruct (Z.lt_trichotomy d k) as [Hlt|[Heq|Hgt]]; [|assumption|].
  - assert (2 ^ d <= 2 ^ (k - 1)) by (apply Z.pow_le_mono_r; lia). lia.
  - assert (2 ^ k <= 2 ^ (d - 1)) by (apply Z.pow_le_mono_r; lia). lia.
Qed.

(** *** Shifting a mantissa to the right *)

Lemma iter_pos_nat {A} (f : A -> A) (p : positive) (x : A) :
  iter_pos f p x = Nat.iter (Pos.to_nat p) f x.
Proof.
  revert x. induction p as [p IH|p IH|]; intros x; cbn [iter_pos].
  - rewrite !IH, Pos2Nat.inj_xI.
    replace (S (2 * Pos.to_nat p)) with (Pos.to_nat p + Pos.to_nat p + 1)%nat by lia.
    rewrite !Nat.iter_add. reflexivity.
  - rewrite !IH, Pos2Nat.inj_xO.
    replace (2 * Pos.to_nat p)%nat with (Pos.to_nat p + Pos.to_nat p)%nat by lia.
    rewrite Nat.iter_add. reflexivity.
  - reflexivity.
Qed.

Lemma loc_of_shr_record_of_loc (m : Z) (l : SpecFloat.location) :
  loc_of_shr_record (shr_record_of_loc m l) = l.
Proof. now destruct l as [|[]]. Qed.

Lemma shr_m_of_loc (m : Z) (l : SpecFloat.location) :
  shr_m (shr_record_of_loc m l) = m.
Proof. now destruct l as [|[]]. Qed.

Lemma half_unique (m q r : Z) :
  m = 2 * q + r -> 0 <= r < 2 -> m / 2 = q /\ m mod 2 = r.
Proof.
  intros Hm Hr. split.
  - symmetry. apply (Z.div_unique m 2 q r); lia.
  - symmetry. apply (Z.mod_unique m 2 q r); lia.
Qed.

(** One step: the mantissa is halved, and the fraction that was dropped
    before is halved with the bit that is dropped now. *)
Lemma shr_1_location (m num den : Z) :
  0 <= m -> 0 <= num < den ->
  shr_1 (shr_record_of_loc m (location num den))
  = shr_record_of_loc (m / 2) (location ((m mod 2) * den + num) (2 * den)).
Proof.
  intros Hm Hnum.
  assert (Hcases : (m = 0 /\ m / 2 = 0 /\ m mod 2 = 0) \/
                   (m = 1 /\ m / 2 = 0 /\ m mod 2 = 1) \/
                   (exists p, m = Zpos p~0 /\ m / 2 = Zpos p /\ m mod 2 = 0) \/
                   (exists p, m = Zpos p~1 /\ m / 2 = Zpos p /\ m mod 2 = 1)).
  { destruct m as [|[p|p|]|p].
    - left. auto.
    - right. right. right. exists p. split; [reflexivity|].
      apply half_unique; lia.
    - right. right. left. exists p. split; [reflexivity|].
      apply half_unique; lia.
    - right. left. split; [reflexivity|]. apply half_unique; lia.
    - lia. }
  unfold location.
  destruct Hcases as [(-> & -> & ->)|[(-> & -> & ->)|[(p & -> & -> & ->)|(p & -> & -> & ->)]]].
  - rewrite Z.mul_0_l, Z.add_0_l.
    destruct (Z.eqb_spec num 0) as [->|Hne]; [reflexivity|].
    replace (2 * num ?= 2 * den) with Lt
      by (symmetry; apply Z.compare_lt_iff; lia).
    now destruct (2 * num ?= den).
  - rewrite Z.mul_1_l.
    destruct (Z.eqb_spec num 0) as [->|Hne].
    + rewrite Z.add_0_r.
      destruct (Z.eqb_spec den 0) as [->|_]; [lia|].
      now rewrite Z.compare_refl.
    + destruct (Z.eqb_spec (den + num) 0) as [E|_]; [lia|].
      replace (2 * (den + num) ?= 2 * den) with Gt
        by (symmetry; apply Z.compare_gt_iff; lia).
      now destruct (2 * num ?= den).
  - rewrite Z.mul_0_l, Z.add_0_l.
    destruct (Z.eqb_spec num 0) as [->|Hne]; [reflexivity|].
    replace (2 * num ?= 2 * den) with Lt
      by (symmetry; apply Z.compare_lt_iff; lia).
    now destruct (2 * num ?= den).
  - rewrite Z.mul_1_l.
    destruct (Z.eqb_spec num 0) as [->|Hne].
    + rewrite Z.add_0_r.
      destruct (Z.eqb_spec den 0) as [->|_]; [lia|].
      now rewrite Z.compare_refl.
    + destruct (Z.eqb_spec (den + num) 0) as [E|_]; [lia|].
      replace (2 * (den + num) ?= 2 * den) with Gt
        by (symmetry; apply Z.compare_gt_iff; lia).
      now destruct (2 * num ?= den).
Qed.

Lemma shr_iter (k : nat) (m num den : Z) :
  0 <= m -> 0 <= num < den ->
  Nat.iter k shr_1 (shr_record_of_loc m (location num den))
  = shr_record_of_loc
      (m / 2 ^ Z.of_nat k)
      (location ((m mod 2 ^ Z.of_nat k) * den + num) (2 ^ Z.of_nat k * den)).
Proof.
  intros Hm Hnum. induction k as [|k IH].
  - change (Nat.iter 0 shr_1 ?x) with x. change (2 ^ Z.of_nat 0) with 1.
    now rewrite Z.div_1_r, Z.mod_1_r, Z.mul_0_l, Z.add_0_l, Z.mul_1_l.
  - rewrite Nat.iter_succ, IH.
    assert (Hpow : 0 < 2 ^ Z.of_nat k) by (apply Z.pow_pos_nonneg; lia).
    pose proof (Z.mod_pos_bound m (2 ^ Z.of_nat k) Hpow) as Hmod.
    rewrite shr_1_location.
    + rewrite Nat2Z.inj_succ, Z.pow_succ_r by lia.
      rewrite (Z.mul_comm 2 (2 ^ Z.of_nat k)).
      rewrite Z.div_div by lia.
      rewrite (Z.rem_mul_r m (2 ^ Z.of_nat k) 2) by lia.
      f_equal. f_equal; ring.
    + apply Z.div_pos; lia.
    + apply fraction_bound; assumption.
Qed.

Lemma shr_location (m num den e n : Z) :
  0 <= m -> 0 <= num < den -> 0 <= n ->
  shr (shr_record_of_loc m (location num den)) e n
  = (shr_record_of_loc
       (m / 2 ^ n) (location ((m mod 2 ^ n) * den + num) (2 ^ n * den)),
     e + n).
Proof.
  intros Hm Hnum Hn. destruct n as [|p|p]; [| |lia].
  - cbn [shr]. change (2 ^ 0) with 1.
    now rewrite Z.div_1_r, Z.mod_1_r, Z.mul_0_l, Z.add_0_l, Z.mul_1_l, Z.add_0_r.
  - cbn [shr]. rewrite iter_pos_nat, shr_iter by assumption.
    now rewrite positive_nat_Z.
Qed.

(** *** Rounding *)

(** Rounding to nearest moves the mantissa by half a unit at most. *)
Lemma round_nearest_even_location (m num den : Z) :
  0 <= num < den ->
  let r := round_nearest_even m (location num den) in
  (r = m \/ r = m + 1) /\
  2 * Z.abs (r * den - (m * den + num)) <= den.
Proof.
  intros Hnum. unfold location, round_nearest_even.
  destruct (Z.eqb_spec num 0) as [->|Hne].
  - split; [auto|]. lia.
  - destruct (Z.compare_spec (2 * num) den) as [E|L|G].
    + destruct (Z.even m); split; auto; lia.
    + split; [auto|]. lia.
    + split; [auto|]. lia.
Qed.

Lemma fexp_normal (k : Z) : -1021 <= k -> fexp 53 1024 k = k - 53.
Proof. unfold fexp, emin. lia. Qed.

Lemma Zdigits2_unique (m k : Z) :
  2 ^ (k - 1) <= m < 2 ^ k -> 0 < m -> Zdigits2 m = k.
Proof.
  intros Hk Hm. destruct m as [|p|p]; try lia.
  now apply digits2_pos_unique.
Qed.

(** The rounding of the positive number [(m + num/den) * 2^e], whose
    mantissa [m] has [53 + n] digits, in the range of the normal numbers:
    the result is a normal number, [n] or [n + 1] binary places coarser,
    within half a unit of the last of the [53] places kept. *)
Lemma binary_round_aux_normal (s : bool) (m e num den n : Z) :
  0 <= n -> 2 ^ (52 + n) <= m < 2 ^ (53 + n) -> 0 <= num < den ->
  -1074 <= e + n -> e + n + 1 <= 971 ->
  exists M E,
    binary_round_aux 53 1024 s m e (location num den) = S754_finite s M E /\
    2 ^ 52 <= Zpos M < 2 ^ 53 /\
    (E = e + n \/ E = e + n + 1) /\
    2 * Z.abs (Zpos M * 2 ^ (E - e) * den - (m * den + num)) <= 2 ^ n * den.
Proof.
  intros Hn Hm Hnum Hlo Hhi.
  assert (Hpn : 0 < 2 ^ n) by (apply Z.pow_pos_nonneg; lia).
  assert (H52 : 2 ^ (52 + n) = 2 ^ 52 * 2 ^ n) by (apply Z.pow_add_r; lia).
  assert (H53 : 2 ^ (53 + n) = 2 ^ 53 * 2 ^ n) by (apply Z.pow_add_r; lia).
  assert (Hmpos : 0 < m).
  { assert (0 < 2 ^ (52 + n)) by (apply Z.pow_pos_nonneg; lia). lia. }
  unfold binary_round_aux, shr_fexp.
  rewrite (Zdigits2_unique m (53 + n)) by
    (replace (53 + n - 1) with (52 + n) by lia; auto).
  rewrite fexp_normal by lia.
  replace (53 + n + e - 53 - e) with n by lia.
  rewrite shr_location by lia.
  rewrite loc_of_shr_record_of_loc, shr_m_of_loc.
  set (m1 := m / 2 ^ n).
  set (num1 := (m mod 2 ^ n) * den + num).
  set (den1 := 2 ^ n * den).
  pose proof (Z.div_mod m (2 ^ n) ltac:(lia)) as Hdm.
  pose proof (Z.mod_pos_bound m (2 ^ n) Hpn) as Hmod.
  fold m1 in Hdm.
  assert (Hm1 : 2 ^ 52 <= m1 < 2 ^ 53).
  { unfold m1. split.
    - apply Z.div_le_lower_bound; lia.
    - apply Z.div_lt_upper_bound; lia. }
  assert (Hnum1 : 0 <= num1 < den1)
    by (unfold num1, den1; apply fraction_bound; assumption).
  assert (Hval : m * den + num = m1 * den1 + num1).
  { unfold num1, den1. rewrite Hdm at 1. ring. }
  destruct (round_nearest_even_location m1 num1 den1 Hnum1) as [Hr Herr].
  set (r := round_nearest_even m1 (location num1 den1)) in *.
  change (shr_record_of_loc r loc_Exact)
    with (shr_record_of_loc r (location 0 1)).
  assert (Hcase : r < 2 ^ 53 \/ r = 2 ^ 53) by lia.
  destruct Hcase as [Hlt|Heq].
  - rewrite (Zdigits2_unique r 53) by (simpl; lia).
    rewrite fexp_normal by lia.
    replace (53 + (e + n) - 53 - (e + n)) with 0 by lia.
    rewrite shr_location by lia.
    rewrite shr_m_of_loc. change (2 ^ 0) with 1. rewrite Z.div_1_r.
    destruct r as [|M|M]; try lia.
    exists M, (e + n + 0).
    replace (e + n + 0 <=? 1024 - 53) with true by (symmetry; apply Z.leb_le; lia).
    split; [reflexivity|]. split; [lia|]. split; [left; lia|].
    replace (e + n + 0 - e) with n by lia.
    rewrite Hval. fold den1 in Herr |- *.
    replace (Zpos M * 2 ^ n * den) with (Zpos M * den1) by (unfold den1; ring).
    exact Herr.
  - rewrite (Zdigits2_unique r 54) by (rewrite Heq; simpl; lia).
    rewrite fexp_normal by lia.
    replace (54 + (e + n) - 53 - (e + n)) with 1 by lia.
    rewrite shr_location by lia.
    rewrite shr_m_of_loc, Heq.
    change (2 ^ 53 / 2 ^ 1) with (Zpos (2 ^ 52)).
    exists (2 ^ 52)%positive, (e + n + 1).
    replace (e + n + 1 <=? 1024 - 53) with true by (symmetry; apply Z.leb_le; lia).
    split; [reflexivity|]. split; [simpl; lia|]. split; [right; lia|].
    replace (e + n + 1 - e) with (n + 1) by lia.
    rewrite Z.pow_add_r by lia. rewrite Hval.
    replace (Zpos (2 ^ 52) * (2 ^ n * 2 ^ 1) * den) with (2 ^ 53 * den1)
      by (unfold den1; change (Zpos (2 ^ 52)) with (2 ^ 52); change (2 ^ 53) with (2 ^ 52 * 2 ^ 1); ring).
    rewrite <- Heq. exact Herr.
Qed.

(** *** Conversion of an integer *)

Lemma shl_align_spec (p : positive) (e e' : Z) :
  e' <= e ->
  shl_align p e e' = (Z.to_pos (Zpos p * 2 ^ (e - e')), e').
Proof.
  intros Hle. unfold shl_align.
  destruct (e' - e) as [|d|d] eqn:Hd; try lia.
  - replace (e - e') with 0 by lia.
    change (2 ^ 0) with 1. rewrite Z.mul_1_r. simpl. f_equal. lia.
  - replace (e - e') with (Zpos d) by lia.
    f_equal. apply Pos2Z.inj. rewrite Z2Pos.id.
    + change (Pos.iter xO p d) with (shift_pos d p).
      rewrite shift_pos_correct. change (Z.pow_pos 2 d) with (2 ^ Zpos d). ring.
    + apply Z.mul_pos_pos; [lia|]. apply Z.pow_pos_nonneg; lia.
Qed.

(** An integer of at most 53 binary digits is converted exactly: its
    mantissa is the integer shifted to 53 digits. *)
Lemma of_int_exact (z k : Z) :
  1 <= k <= 53 -> 2 ^ (k - 1) <= z < 2 ^ k ->
  F64.of_int z = S754_finite false (Z.to_pos (z * 2 ^ (53 - k))) (k - 53).
Proof.
  intros Hk Hz.
  assert (Hpk : 0 < 2 ^ (k - 1)) by (apply Z.pow_pos_nonneg; lia).
  pose proof (scale_bounds z k Hk Hz) as Hm.
  destruct z as [|p|p]; try lia.
  unfold F64.of_int, F64.prec, F64.emax, binary_normalize, binary_round.
  rewrite (digits2_pos_unique p k Hz).
  rewrite fexp_normal by lia.
  rewrite shl_align_spec by lia.
  replace (0 - (k + 0 - 53)) with (53 - k) by lia.
  replace (k + 0 - 53) with (k - 53) by lia.
  set (m := Zpos p * 2 ^ (53 - k)) in *.
  rewrite Z2Pos.id by lia.
  destruct (binary_round_aux_normal false m (k - 53) 0 1 0)
    as (M & E & Hr & HM & HE & Herr); try lia.
  change (location 0 1) with loc_Exact in Hr. rewrite Hr.
  change (2 ^ 0) with 1 in Herr.
  destruct HE as [->| ->].
  - replace (k - 53 + 0 - (k - 53)) with 0 in Herr by lia.
    change (2 ^ 0) with 1 in Herr.
    replace (k - 53 + 0) with (k - 53) by lia.
    f_equal. apply Pos2Z.inj. rewrite Z2Pos.id by lia. lia.
  - replace (k - 53 + 0 + 1 - (k - 53)) with 1 in Herr by lia.
    change (2 ^ 1) with 2 in Herr. lia.
Qed.

(** *** Comparison *)

Lemma scaled_lt (M1 M2 E1 E2 c : Z) :
  M1 < 2 ^ 53 -> 2 ^ 52 <= M2 -> c <= E1 -> E1 < E2 ->
  M1 * 2 ^ (E1 - c) < M2 * 2 ^ (E2 - c).
Proof.
  intros H1 H2 Hc Hlt.
  assert (HX : 0 < 2 ^ (E1 - c)) by (apply Z.pow_pos_nonneg; lia).
  assert (HA : 0 < 2 ^ (E2 - E1 - 1)) by (apply Z.pow_pos_nonneg; lia).
  replace (E2 - c) with ((E2 - E1 - 1) + 1 + (E1 - c)) by lia.
  rewrite !Z.pow_add_r by lia. change (2 ^ 1) with 2.
  set (X := 2 ^ (E1 - c)) in *. set (A := 2 ^ (E2 - E1 - 1)) in *.
  assert (Ha : M1 * X < 2 ^ 53 * X) by (apply Z.mul_lt_mono_pos_r; lia).
  assert (Hb : 2 ^ 53 * X <= 2 * M2 * X).
  { apply Z.mul_le_mono_nonneg_r; [lia|]. change (2 ^ 53) with (2 * 2 ^ 52). lia. }
  assert (Hc' : 0 <= 2 * M2 * X).
  { apply Z.mul_nonneg_nonneg; [|lia]. assert (0 < 2 ^ 52) by reflexivity. lia. }
  assert (Hd : 2 * M2 * X <= A * (2 * M2 * X)).
  { rewrite <- (Z.mul_1_l (2 * M2 * X)) at 1.
    apply Z.mul_le_mono_nonneg_r; lia. }
  replace (M2 * (A * 2 * X)) with (A * (2 * M2 * X)) by ring. lia.
Qed.

(** Two positive normal numbers compare as their values do, here scaled
    to integers by a common power of two. *)
Lemma ltb_normal (M1 M2 : positive) (E1 E2 c : Z) :
  2 ^ 52 <= Zpos M1 < 2 ^ 53 -> 2 ^ 52 <= Zpos M2 < 2 ^ 53 ->
  c <= E1 -> c <= E2 ->
  F64.ltb (S754_finite false M1 E1) (S754_finite false M2 E2)
  = (Zpos M1 * 2 ^ (E1 - c) <? Zpos M2 * 2 ^ (E2 - c)).
Proof.
  intros H1 H2 Hc1 Hc2.
  unfold F64.ltb, SFltb, SFcompare.
  assert (Hp1 : 0 < 2 ^ (E1 - c)) by (apply Z.pow_pos_nonneg; lia).
  assert (Hp2 : 0 < 2 ^ (E2 - c)) by (apply Z.pow_pos_nonneg; lia).
  destruct (Z.compare_spec E1 E2) as [Heq|Hlt|Hgt].
  - subst E2. rewrite Pos.compare_cont_spec. cbn [Pos.switch_Eq].
    change (Pos.compare M1 M2) with (Z.compare (Zpos M1) (Zpos M2)).
    clear H1 H2.
    destruct (Z.compare_spec (Zpos M1) (Zpos M2)) as [E|L|G]; symmetry.
    + apply Z.ltb_ge. rewrite E. apply Z.le_refl.
    + apply Z.ltb_lt. apply Z.mul_lt_mono_pos_r; assumption.
    + apply Z.ltb_ge. apply Z.mul_le_mono_nonneg_r; lia.
  - symmetry. apply Z.ltb_lt. apply scaled_lt; lia.
  - symmetry. apply Z.ltb_ge. apply Z.lt_le_incl. apply scaled_lt; lia.
Qed.

(** *** Product *)

(** The product of two positive normal numbers, away from the ends of the
    exponent range: the exact product of the mantissas has 105 or 106
    digits, of which 53 are kept. *)
Lemma mul_normal (mx my : positive) (ex ey : Z) :
  2 ^ 52 <= Zpos mx < 2 ^ 53 -> 2 ^ 52 <= Zpos my < 2 ^ 53 ->
  -1126 <= ex + ey -> ex + ey <= 917 ->
  exists M E n,
    F64.mul (S754_finite false mx ex) (S754_finite false my ey)
    = S754_finite false M E /\
    (n = 52 \/ n = 53) /\
    2 ^ 52 <= Zpos M < 2 ^ 53 /\
    (E = ex + ey + n \/ E = ex + ey + n + 1) /\
    2 ^ (52 + n) <= Zpos mx * Zpos my /\
    2 * Z.abs (Zpos M * 2 ^ (E - (ex + ey)) - Zpos mx * Zpos my) <= 2 ^ n.
Proof.
  intros Hx Hy Hlo Hhi.
  unfold F64.mul, F64.prec, F64.emax, SFmul. cbn [xorb].
  rewrite Pos2Z.inj_mul.
  set (P := Zpos mx * Zpos my).
  assert (HP : 2 ^ 104 <= P < 2 ^ 106).
  { unfold P. change (2 ^ 104) with (2 ^ 52 * 2 ^ 52).
    change (2 ^ 106) with (2 ^ 53 * 2 ^ 53). split.
    - apply Z.mul_le_mono_nonneg; lia.
    - apply Z.mul_lt_mono_nonneg; lia. }
  assert (Hn : P < 2 ^ 105 \/ 2 ^ 105 <= P) by lia.
  destruct Hn as [Hn|Hn].
  - destruct (binary_round_aux_normal false P (ex + ey) 0 1 52)
      as (M & E & Hr & HM & HE & Herr); try lia.
    change (location 0 1) with loc_Exact in Hr.
    exists M, E, 52. rewrite Hr.
    split; [reflexivity|]. split; [lia|]. split; [exact HM|].
    split; [exact HE|].
    split; [change (2 ^ (52 + 52)) with (2 ^ 104); lia|].
    replace (Zpos M * 2 ^ (E - (ex + ey)) * 1 - (P * 1 + 0))
      with (Zpos M * 2 ^ (E - (ex + ey)) - P) in Herr by ring.
    lia.
  - destruct (binary_round_aux_normal false P (ex + ey) 0 1 53)
      as (M & E & Hr & HM & HE & Herr); try lia.
    change (location 0 1) with loc_Exact in Hr.
    exists M, E, 53. rewrite Hr.
    split; [reflexivity|]. split; [lia|]. split; [exact HM|].
    split; [exact HE|].
    split; [change (2 ^ (52 + 53)) with (2 ^ 105); lia|].
    replace (Zpos M * 2 ^ (E - (ex + ey)) * 1 - (P * 1 + 0))
      with (Zpos M * 2 ^ (E - (ex + ey)) - P) in Herr by ring.
    lia.
Qed.

(** *** The delivery clause of the SLA flag *)

(** [sla_threshold/100] is the float nearest to 0.9, a little above it:
    ten times its mantissa is [9 * 2^53 + 2]. *)
Lemma sla_ratio :
  F64.div (F64.of_int sla_threshold) (F64.of_int 100)
  = S754_finite false 8106479329266893 (-53).
Proof. vm_compute. reflexivity. Qed.

Lemma of_int_digits (z bound : Z) :
  0 < z < 2 ^ bound -> bound <= 53 ->
  exists k, 1 <= k <= bound /\ 2 ^ (k - 1) <= z < 2 ^ k /\
            F64.of_int z
            = S754_finite false (Z.to_pos (z * 2 ^ (53 - k))) (k - 53).
Proof.
  intros Hz Hb.
  pose proof (Z.log2_spec z ltac:(lia)) as Hlog.
  pose proof (Z.log2_nonneg z) as Hnn.
  set (k := Z.log2 z + 1).
  assert (Hk : 2 ^ (k - 1) <= z < 2 ^ k).
  { unfold k. replace (Z.log2 z + 1 - 1) with (Z.log2 z) by lia.
    replace (Z.log2 z + 1) with (Z.succ (Z.log2 z)) by lia. exact Hlog. }
  assert (Hkb : k <= bound).
  { assert (Hlt : 2 ^ (k - 1) < 2 ^ bound) by lia.
    assert (0 <= bound).
    { destruct (Z.le_gt_cases 0 bound); [assumption|].
      rewrite (Z.pow_neg_r 2 bound) in Hz by lia. lia. }
    apply Z.pow_lt_mono_r_iff in Hlt; lia. }
  exists k. split; [unfold k; lia|]. split; [exact Hk|].
  apply of_int_exact; [unfold k; lia|exact Hk].
Qed.

(** Below [2^50] the comparison in [float64] decides the comparison of
    the integers [10 * delivered] and [9 * booked]. *)
Lemma under_threshold_exact (b d : Z) :
  0 <= b < 2 ^ 50 -> 0 <= d < 2 ^ 50 ->
  F64.ltb (F64.of_int d)
          (F64.mul (F64.div (F64.of_int sla_threshold) (F64.of_int 100))
                   (F64.of_int b))
  = (10 * d <? 9 * b).
Proof.
  intros Hb Hd. rewrite sla_ratio.
  assert (Hb0 : b = 0 \/ 0 < b) by lia.
  destruct Hb0 as [->|Hbpos].
  { (* nothing booked *)
    replace (10 * d <? 9 * 0) with false by (symmetry; apply Z.ltb_ge; lia).
    change (F64.of_int 0) with (S754_zero false).
    assert (Hd0 : d = 0 \/ 0 < d) by lia.
    destruct Hd0 as [->|Hdpos]; [reflexivity|].
    destruct (of_int_digits d 50) as (kd & _ & _ & ->); [lia|lia|].
    reflexivity. }
  destruct (of_int_digits b 50) as (kb & Hkb & Hbk & ->); [lia|lia|].
  set (S := 2 ^ (53 - kb)).
  assert (HS : 8 <= S).
  { unfold S. change 8 with (2 ^ 3). apply Z.pow_le_mono_r; lia. }
  assert (HbS : 2 ^ 52 <= b * S < 2 ^ 53) by (apply scale_bounds; lia).
  destruct (mul_normal 8106479329266893 (Z.to_pos (b * S)) (-53) (kb - 53))
    as (M & E & n & -> & Hn & HM & HE & _ & Herr);
    [reflexivity || (simpl; lia)|rewrite Z2Pos.id by lia; exact HbS|lia|lia|].
  rewrite Z2Pos.id in Herr by lia.
  set (c := -53 + (kb - 53)) in *.
  assert (Hd0 : d = 0 \/ 0 < d) by lia.
  destruct Hd0 as [->|Hdpos].
  { replace (10 * 0 <? 9 * b) with true by (symmetry; apply Z.ltb_lt; lia).
    reflexivity. }
  destruct (of_int_digits d 50) as (kd & Hkd & Hdk & ->); [lia|lia|].
  assert (Hmd : 2 ^ 52 <= d * 2 ^ (53 - kd) < 2 ^ 53)
    by (apply scale_bounds; lia).
  rewrite (ltb_normal _ _ _ _ c); [|rewrite Z2Pos.id by lia; exact Hmd|exact HM|unfold c; lia|unfold c; lia].
  rewrite Z2Pos.id by lia.
  (* the left side is [d * 2^53 * S] *)
  assert (HW : d * 2 ^ (53 - kd) * 2 ^ (kd - 53 - c) = 2 ^ 53 * (d * S)).
  { unfold c, S. rewrite <- Z.mul_assoc, <- Z.pow_add_r by lia.
    replace (53 - kd + (kd - 53 - (-53 + (kb - 53)))) with (53 + (53 - kb)) by lia.
    rewrite Z.pow_add_r by lia. ring. }
  rewrite HW.
  (* both sides are multiples of [2^n] *)
  assert (HV : exists v, Zpos M * 2 ^ (E - c) = v * 2 ^ n).
  { destruct HE as [->| ->].
    - exists (Zpos M). f_equal. f_equal. unfold c. lia.
    - exists (Zpos M * 2). replace (c + n + 1 - c) with (1 + n) by lia.
      rewrite Z.pow_add_r by lia. change (2 ^ 1) with 2. ring. }
  destruct HV as (v & HV). rewrite HV in Herr |- *.
  assert (HWn : exists w, 2 ^ 53 * (d * S) = w * 2 ^ n).
  { exists (d * S * 2 ^ (53 - n)).
    replace (2 ^ 53) with (2 ^ (53 - n) * 2 ^ n).
    - ring.
    - rewrite <- Z.pow_add_r by lia. f_equal. lia. }
  destruct HWn as (w & HWn). rewrite HWn.
  set (bS := b * S) in *. set (dS := d * S) in *.
  assert (HdS : 10 * d < 9 * b -> 10 * dS + S <= 9 * bS).
  { intros Hlt. unfold dS, bS.
    assert (H : (10 * d + 1) * S <= 9 * b * S)
      by (apply Z.mul_le_mono_nonneg_r; lia).
    lia. }
  assert (HdS' : 9 * b <= 10 * d -> 9 * bS <= 10 * dS).
  { intros Hge. unfold dS, bS.
    assert (H : 9 * b * S <= 10 * d * S)
      by (apply Z.mul_le_mono_nonneg_r; lia).
    lia. }
  clearbody bS dS S. clear HW HE HM Hmd.
  destruct (Z.ltb_spec (10 * d) (9 * b)) as [Hlt|Hge].
  - specialize (HdS Hlt). apply Z.ltb_lt.
    destruct Hn as [->| ->];
      [change (2 ^ 52) with 4503599627370496 in *
      |change (2 ^ 52) with 4503599627370496 in *];
      change (2 ^ 53) with 9007199254740992 in *; lia.
  - specialize (HdS' Hge). apply Z.ltb_ge.
    destruct Hn as [->| ->];
      [change (2 ^ 52) with 4503599627370496 in *
      |change (2 ^ 52) with 4503599627370496 in *];
      change (2 ^ 53) with 9007199254740992 in *; lia.
Qed.

(** ** More on the flag engine *)

Lemma int64_wrap_small (z : Z) :
  - 2 ^ 63 <= z < 2 ^ 63 -> int64_wrap z = z.
Proof.
  intros Hz. unfold int64_wrap.
  change (2 ^ 64) with (2 * 2 ^ 63).
  rewrite Z.mod_small by lia. lia.
Qed.

Lemma same_group_self (rows : list Row) (r : Row) :
  In r rows -> In r (same_group rows (group_key r)).
Proof.
  intros Hin. unfold same_group. apply filter_In. split; [assumption|].
  apply cmp_eqb_refl.
Qed.

(** X1. The column that the merge adds, [Overbooking_grouped], is the one
    that holds the flag of the slot: on a row whose page, property and two
    goal dates are present it is true exactly when the booked impressions
    of the rows of the same slot add up to more than the capacity (the sum
    being within the 64-bit integers); on a row with one of the four
    missing it is missing, the row being in no group. *)
Theorem overbooking_grouped_flag (rows : list Row) (f : Flagged) :
  In f (add_flags rows) ->
  (group_key_na (group_key (base f)) = true ->
   Overbooking_grouped f = None) /\
  (group_key_na (group_key (base f)) = false ->
   - 2 ^ 63 <= booked_in_group rows (group_key (base f)) < 2 ^ 63 ->
   Overbooking_grouped f
   = Some (PAGE_CAPACITY <? booked_in_group rows (group_key (base f)))).
Proof.
  intros Hin. rewrite (Overbooking_grouped_spec rows f Hin).
  apply in_add_flags in Hin as [Hbase _].
  unfold merged_flag. split.
  - intros ->. reflexivity.
  - intros -> Hrange.
    pose proof (same_group_self rows (base f) Hbase) as Hself.
    unfold booked_in_group in *.
    destruct (same_group rows (group_key (base f))) as [|r g] eqn:Hg;
      [destruct Hself|].
    unfold int64_sum. now rewrite int64_wrap_small.
Qed.

Lemma overbooking_grouped_flag_witness :
  exists f1 f2 f3,
    add_flags two_in_slot = [f1; f2; f3] /\
    booked_in_group two_in_slot (group_key (base f1)) = 1600000 /\
    Overbooking_grouped f1 = Some true.
Proof.
  do 3 eexists. split; [reflexivity|]. split; [reflexivity|].
  apply (overbooking_grouped_flag two_in_slot).
  - vm_compute. auto.
  - reflexivity.
  - vm_compute. split; [discriminate|reflexivity].
Defined.

Lemma count_true_none (flag : Flagged -> bool) (df : list Flagged) :
  Forall (fun f => flag f = false) df -> count_true flag df = 0.
Proof.
  intros Hall. unfold count_true.
  induction Hall as [|f df Hf _ IH]; [reflexivity|].
  simpl. now rewrite Hf.
Qed.

Lemma add_flags_Overbooking (rows : list Row) :
  Forall (fun f => Overbooking f = false) (add_flags rows).
Proof.
  apply Forall_forall. intros f Hin. now apply (Overbooking_false rows).
Qed.

(** ** More on the script *)

Section ScriptRuns.
Variable to_datetime : string -> option Timestamp.

Lemma show_metrics_events (df : list Flagged) :
  fst (show_metrics df) =
  [st_header "Overall Campaign Performance";
   st_metric "Overall Fill Rate" (Percent (fill_rate df))
     (Some (if F64.eqb (fill_rate df) (F64.of_int 100) then Text "On Target"
            else Percent (F64.sub (fill_rate df) (F64.of_int 100))));
   st_header "Campaign Performance Metrics";
   st_metric "Total Campaigns" (Int (Z.of_nat (List.length df))) None;
   st_metric "Overbooking Issues" (Int (count_true Overbooking df)) None;
   st_metric "Underdelivery Issues" (Int (count_true Underdelivery df)) None;
   st_metric "SLA Breaches" (Int (count_true SLA_Breach df)) None].
Proof. reflexivity. Qed.

Lemma analysis_run (df : list Flagged) :
  analysis df =
  match df with
  | [] => ([st_header "True/False Analysis";
            st_tabs ["Issue Distribution"; "Page Analysis"; "Property Analysis"]%string;
            st_plotly_chart "Issue Distribution (True/False)"],
           inl ZeroDivisionError)
  | _ :: _ =>
      ([st_header "True/False Analysis";
        st_tabs ["Issue Distribution"; "Page Analysis"; "Property Analysis"]%string;
        st_plotly_chart "Issue Distribution (True/False)";
        st_plotly_chart "Distribution of Issues (% of Total Campaigns)";
        st_subheader "Page-wise Analysis";
        st_dataframe (MetricsTable (page_metrics df));
        st_plotly_chart "Fill Rate by Page (%)";
        st_plotly_chart "Issue Rates by Page (%)";
        st_subheader "Property-wise Analysis";
        st_dataframe (MetricsTable (property_metrics df));
        st_plotly_chart "Fill Rate by Property (%)";
        st_plotly_chart "Issue Rates by Property (%)"],
       inr tt)
  end.
Proof. destruct df; reflexivity. Qed.

Lemma complete_file (u : Upload) :
  (forall c, In c required_columns -> has_column u c = true) ->
  find (fun c => negb (has_column u c)) engine_columns = None /\
  filter (fun c => negb (has_column u c)) ["Lead ID"; "Line item ID"]%string = [].
Proof.
  intros Hall. split.
  - unfold engine_columns. cbn [find].
    rewrite !Hall by (unfold required_columns; simpl; auto 10). reflexivity.
  - cbn [filter].
    rewrite !Hall by (unfold required_columns; simpl; auto 10). reflexivity.
Qed.

(** The page of a file that has all its columns. *)
Lemma process_complete (u : Upload) :
  (forall c, In c required_columns -> has_column u c = true) ->
  process to_datetime u =
  flat_map (column_warning to_datetime u) date_columns ++
  fst (show_metrics (flagged_table to_datetime u)) ++
  [st_header "Campaign Data";
   st_dataframe (CampaignData (map show (flagged_table to_datetime u)));
   st_download_button "Download data as CSV"
     (map show (flagged_table to_datetime u))] ++
  fst (analysis (flagged_table to_datetime u)) ++
  match flagged_table to_datetime u with
  | [] => fst (handler ZeroDivisionError)
  | _ :: _ => []
  end.
Proof.
  intros Hall. destruct (complete_file u Hall) as [Hfind Hfilter].
  unfold process, try_except. rewrite body_run. cbv zeta.
  rewrite Hfind, Hfilter. cbn [fst snd].
  rewrite analysis_run.
  destruct (flagged_table to_datetime u); cbn [fst snd].
  - now rewrite <- !app_assoc.
  - now rewrite app_nil_r.
Qed.
End ScriptRuns.

(** ** More on the SLA flag *)

Lemma late_start_iff (r : Row) :
  late_start r = true <->
  exists created goal_start,
    Created_Time r = Some created /\ Goal_Start_Date r = Some goal_start /\
    goal_start < created.
Proof.
  unfold late_start, date_gt.
  destruct (Created_Time r) as [c|], (Goal_Start_Date r) as [g|]; split;
    try discriminate.
  - intros H. exists c, g. apply Z.ltb_lt in H. auto.
  - intros (c' & g' & [= <-] & [= <-] & H). now apply Z.ltb_lt.
  - intros (c' & g' & _ & [=] & _).
  - intros (c' & g' & [=] & _).
  - intros (c' & g' & [=] & _).
Qed.

(** X2. On a row whose two counts are below [2^50], the comparison of line
    56, done in [float64] with the float nearest to 0.9, decides the
    comparison of the integers: [SLA_Breach] is true exactly when a hundred
    times the delivered impressions are below ninety times the booked
    ones, or the creation time and the goal start date are both present
    and the first is after the second. *)
Theorem sla_breach_exact (rows : list Row) (f : Flagged) :
  In f (add_flags rows) ->
  0 <= Booked_Impressions (base f) < 2 ^ 50 ->
  0 <= Delivered_Impressions (base f) < 2 ^ 50 ->
  (SLA_Breach f = true <->
   100 * Delivered_Impressions (base f)
   < sla_threshold * Booked_Impressions (base f) \/
   exists created goal_start,
     Created_Time (base f) = Some created /\
     Goal_Start_Date (base f) = Some goal_start /\
     goal_start < created).
Proof.
  intros Hin Hb Hd. apply in_add_flags in Hin as [_ ->]. cbn [SLA_Breach base].
  unfold sla_breach, under_threshold.
  rewrite under_threshold_exact by assumption.
  rewrite orb_true_iff, late_start_iff, Z.ltb_lt.
  unfold sla_threshold. split; (intros [H|H]; [left; lia|right; exact H]).
Qed.

Lemma sla_breach_exact_witness :
  exists f1 f2 f3,
    add_flags two_in_slot = [f1; f2; f3] /\
    (SLA_Breach f3 = true <->
     100 * Delivered_Impressions (base f3)
     < sla_threshold * Booked_Impressions (base f3) \/
     exists created goal_start,
       Created_Time (base f3) = Some created /\
       Goal_Start_Date (base f3) = Some goal_start /\
       goal_start < created).
Proof.
  do 3 eexists. split; [reflexivity|].
  apply (sla_breach_exact two_in_slot).
  - right. right. left. reflexivity.
  - cbn [base Booked_Impressions]. split; [discriminate|reflexivity].
  - cbn [base Delivered_Impressions]. split; [discriminate|reflexivity].
Defined.

(** X3. With counts below [2^50] and nothing negative booked, a row that
    is flagged [SLA_Breach] and not [Underdelivery] is a late booking:
    delivering under 90% of the booking is delivering under the booking. *)
Theorem breach_without_underdelivery_is_late (rows : list Row) (f : Flagged) :
  In f (add_flags rows) ->
  0 <= Booked_Impressions (base f) < 2 ^ 50 ->
  0 <= Delivered_Impressions (base f) < 2 ^ 50 ->
  SLA_Breach f = true -> Underdelivery f = false ->
  late_start (base f) = true.
Proof.
  intros Hin Hb Hd Hsla Hunder.
  apply in_add_flags in Hin as [_ Hf]. rewrite Hf in Hsla, Hunder.
  cbn [SLA_Breach Underdelivery base] in Hsla, Hunder.
  unfold sla_breach, under_threshold in Hsla.
  rewrite under_threshold_exact in Hsla by assumption.
  unfold underdelivery in Hunder. apply Z.ltb_ge in Hunder.
  apply orb_true_iff in Hsla as [Hlt|Hlate]; [|exact Hlate].
  apply Z.ltb_lt in Hlt. lia.
Qed.

Lemma breach_without_underdelivery_is_late_witness :
  exists f, add_flags [late_booking] = [f] /\
            SLA_Breach f = true /\ Underdelivery f = false /\
            late_start (base f) = true.
Proof.
  eexists. split; [reflexivity|]. split; [reflexivity|]. split; [reflexivity|].
  apply (breach_without_underdelivery_is_late [late_booking]).
  - left. reflexivity.
  - cbn [base Booked_Impressions]. split; [discriminate|reflexivity].
  - cbn [base Delivered_Impressions]. split; [discriminate|reflexivity].
  - reflexivity.
  - reflexivity.
Defined.

(** ** More on groupby *)

Section GroupByMore.
Context {K : Type} `{OrdLaws K}.

Lemma find_in_sorted {V} (k : K) (v : V) (g : list (K * V)) :
  sorted_keys g -> In (k, v) g ->
  find (fun kv => cmp_eqb k (fst kv)) g = Some (k, v).
Proof.
  unfold sorted_keys.
  induction g as [|[k0 v0] g IH]; simpl; intros Hs Hin; [destruct Hin|].
  apply StronglySorted_inv in Hs as [Hs Hall].
  destruct Hin as [[= -> ->]|Hin].
  - now rewrite cmp_eqb_refl.
  - rewrite Forall_forall in Hall.
    assert (Hlt : cmp k0 k = Lt) by (apply Hall; apply (in_map fst _ _ Hin)).
    rewrite (cmp_lt_neq _ _ Hlt). auto.
Qed.

Lemma sorted_keys_NoDup {V} (g : list (K * V)) :
  sorted_keys g -> NoDup (map fst g).
Proof.
  unfold sorted_keys. induction (map fst g) as [|k ks IH]; intros Hs.
  - constructor.
  - apply StronglySorted_inv in Hs as [Hs Hall]. constructor; [|auto].
    intros Hin. rewrite Forall_forall in Hall.
    specialize (Hall k Hin). rewrite cmp_refl in Hall. discriminate.
Qed.

Context {A : Type}.

(** A group holds the rows of the table that have its key, in the order
    of the table, and at least one. *)
Lemma groupby_group (key : A -> K) (na : K -> bool) (l : list A)
      (k : K) (rows : list A) :
  In (k, rows) (groupby key na l) ->
  rows = filter (fun a => negb (na (key a)) && cmp_eqb k (key a)) l /\
  rows <> [].
Proof.
  intros Hin.
  apply find_in_sorted in Hin; [|apply groupby_sorted].
  rewrite find_groupby in Hin.
  destruct (filter _ l) as [|a rows']; [discriminate|].
  injection Hin as <-. split; [reflexivity|discriminate].
Qed.

Lemma groupby_keys (key : A -> K) (na : K -> bool) (l : list A) (k : K) :
  In k (map fst (groupby key na l)) <->
  exists a, In a l /\ key a = k /\ na k = false.
Proof.
  split.
  - intros Hin. apply in_map_iff in Hin as ([k' rows] & <- & Hin).
    destruct (groupby_group _ _ _ _ _ Hin) as [Hrows Hne].
    destruct rows as [|a rows]; [congruence|].
    assert (Ha : In a (a :: rows)) by (left; reflexivity).
    rewrite Hrows in Ha. apply filter_In in Ha as [Ha Hcond].
    apply andb_true_iff in Hcond as [Hna Heq].
    apply cmp_eqb_true in Heq. simpl in *. subst k'.
    exists a. split; [assumption|]. split; [reflexivity|].
    now apply negb_true_iff.
  - intros (a & Ha & <- & Hna).
    pose proof (find_groupby key na l (key a)) as Hfind.
    assert (Hf : In a (filter (fun a' => negb (na (key a')) && cmp_eqb (key a) (key a')) l)).
    { apply filter_In. split; [assumption|].
      now rewrite Hna, cmp_eqb_refl. }
    destruct (filter _ l) as [|a' rows]; [destruct Hf|].
    apply find_some in Hfind as [Hin _].
    apply (in_map fst) in Hin. exact Hin.
Qed.

Lemma add_to_group_counts (p : A -> bool) (k : K) (a : A)
      (g : list (K * list A)) :
  list_sum (map (fun kv => List.length (filter p (snd kv))) (add_to_group k a g))
  = ((if p a then 1 else 0)
     + list_sum (map (fun kv => List.length (filter p (snd kv))) g))%nat.
Proof.
  induction g as [|[k0 rows] g IH]; simpl.
  - destruct (p a); reflexivity.
  - destruct (cmp k k0); simpl.
    + destruct (p a); reflexivity.
    + destruct (p a); reflexivity.
    + rewrite IH. lia.
Qed.

(** The groups share out the rows whose key is not missing. *)
Lemma groupby_counts (p : A -> bool) (key : A -> K) (na : K -> bool)
      (l : list A) :
  list_sum (map (fun kv => List.length (filter p (snd kv))) (groupby key na l))
  = List.length (filter (fun a => negb (na (key a)) && p a) l).
Proof.
  induction l as [|a l IH]; simpl; [reflexivity|].
  destruct (na (key a)); simpl; [exact IH|].
  rewrite add_to_group_counts, IH.
  destruct (p a); reflexivity.
Qed.
End GroupByMore.

(** ** More on the conversion of integers *)

Lemma shl_align_none (p : positive) (e e' : Z) :
  e <= e' -> shl_align p e e' = (p, e).
Proof.
  intros Hle. unfold shl_align.
  destruct (e' - e) as [|d|d] eqn:Hd; try reflexivity. lia.
Qed.

Lemma binary_round_int (s : bool) (p : positive) :
  Zpos p <= 2 ^ 63 ->
  exists M E, binary_round 53 1024 s p 0 = S754_finite s M E.
Proof.
  intros Hp. unfold binary_round.
  pose proof (digits2_pos_bounds p) as Hd.
  set (k := Zpos (digits2_pos p)) in *.
  assert (Hk1 : 1 <= k) by (unfold k; lia).
  assert (Hk : k <= 64).
  { assert (Hlt : 2 ^ (k - 1) < 2 ^ 64).
    { change (2 ^ 64) with (2 * 2 ^ 63). lia. }
    apply Z.pow_lt_mono_r_iff in Hlt; lia. }
  rewrite fexp_normal by lia.
  replace (k + 0 - 53) with (k - 53) by lia.
  destruct (Z.le_gt_cases k 53) as [Hle|Hgt].
  - rewrite shl_align_spec by lia.
    replace (0 - (k - 53)) with (53 - k) by lia.
    pose proof (scale_bounds (Zpos p) k ltac:(lia) Hd) as Hm.
    destruct (binary_round_aux_normal s (Zpos p * 2 ^ (53 - k)) (k - 53) 0 1 0)
      as (M & E & Hr & _); try lia.
    change (location 0 1) with loc_Exact in Hr.
    rewrite Z2Pos.id by lia. eauto.
  - rewrite shl_align_none by lia.
    destruct (binary_round_aux_normal s (Zpos p) 0 0 1 (k - 53))
      as (M & E & Hr & _); try lia.
    { replace (52 + (k - 53)) with (k - 1) by lia.
      replace (53 + (k - 53)) with k by lia. exact Hd. }
    change (location 0 1) with loc_Exact in Hr. eauto.
Qed.

(** A 64-bit integer other than 0 is converted to a finite number of its
    sign. *)
Lemma of_int_nonzero (z : Z) :
  - 2 ^ 63 <= z <= 2 ^ 63 -> z <> 0 ->
  exists M E, F64.of_int z = S754_finite (z <? 0) M E.
Proof.
  intros Hz Hne. unfold F64.of_int, F64.prec, F64.emax, binary_normalize.
  destruct z as [|p|p]; [congruence| |].
  - apply binary_round_int. lia.
  - apply binary_round_int. lia.
Qed.

Lemma int64_wrap_range (z : Z) : - 2 ^ 63 <= int64_wrap z < 2 ^ 63.
Proof.
  unfold int64_wrap.
  assert (H : 0 <= (z + 2 ^ 63) mod 2 ^ 64 < 2 ^ 64)
    by (apply Z.mod_pos_bound; reflexivity).
  set (r := (z + 2 ^ 63) mod 2 ^ 64) in *.
  change (2 ^ 64) with (2 * 2 ^ 63) in H. lia.
Qed.

Lemma of_int_100 : F64.of_int 100 = S754_finite false 7036874417766400 (-46).
Proof. vm_compute. reflexivity. Qed.

Lemma of_int_hundred : F64.of_int (10 ^ 2) = S754_finite false 7036874417766400 (-46).
Proof. vm_compute. reflexivity. Qed.

(** The unguarded division of lines 161 and 221 when nothing is booked. *)
Lemma group_fill_rate_zero_booked (delivered : Z) :
  - 2 ^ 63 <= delivered < 2 ^ 63 ->
  group_fill_rate delivered 0
  = if delivered =? 0 then F64.nan else S754_infinity (delivered <? 0).
Proof.
  intros Hd. unfold group_fill_rate, F64.round.
  rewrite of_int_100, of_int_hundred.
  change (F64.of_int 0) with (S754_zero false).
  destruct (Z.eqb_spec delivered 0) as [->|Hne]; [reflexivity|].
  destruct (of_int_nonzero delivered ltac:(lia) Hne) as (M & E & ->).
  now destruct (delivered <? 0).
Qed.

(** [(mean * 100).round(2)] of a flag that no row of the group has. *)
Lemma percentage_none (flag : Flagged -> bool) (rows : list Flagged) :
  rows <> [] -> Z.of_nat (List.length rows) <= 2 ^ 63 ->
  Forall (fun f => flag f = false) rows ->
  percentage (mean flag rows) = F64.zero.
Proof.
  intros Hne Hlen Hall. unfold percentage, mean, F64.round.
  rewrite (count_true_none flag rows Hall).
  rewrite of_int_100, of_int_hundred.
  change (F64.of_int 0) with (S754_zero false).
  destruct (of_int_nonzero (Z.of_nat (List.length rows))) as (M & E & ->).
  - lia.
  - destruct rows; [congruence|]. simpl. lia.
  - replace (Z.of_nat (List.length rows) <? 0) with false
      by (symmetry; apply Z.ltb_ge; lia).
    reflexivity.
Qed.

(** ** More on the rollups *)

Lemma cmp_eqb_string (a b : string) : cmp_eqb a b = String.eqb a b.
Proof.
  destruct (String.eqb_spec a b) as [->|Hne].
  - apply cmp_eqb_refl.
  - now apply cmp_eqb_false.
Qed.

Lemma cmp_eqb_cell (v : string) (c : option string) :
  negb (isna c) && cmp_eqb (Some v) c = holds v c.
Proof.
  destruct c as [s|]; [|reflexivity].
  change (cmp_eqb (Some v) (Some s)) with (cmp_eqb v s).
  apply cmp_eqb_string.
Qed.

(** No group of a rollup has a missing key. *)
Lemma rollup_keys_present (d : Row -> option string) (df : list Flagged) :
  Forall (fun k => isna k = false)
         (map fst (groupby (fun f => d (base f)) isna df)).
Proof.
  apply Forall_forall. intros k Hin.
  apply groupby_keys in Hin as (f & _ & _ & Hna). exact Hna.
Qed.

Lemma present_keys_dimensions (g : list (option string * list Flagged)) :
  Forall (fun k => isna k = false) (map fst g) ->
  map Some (map dimension
              (flat_map (fun g => match fst g with
                                  | Some v => [aggregate (v, snd g)]
                                  | None => []
                                  end) g))
  = map fst g.
Proof.
  induction g as [|[[v|] rows] g IH]; cbn [map flat_map fst snd app];
    intros Hall; [reflexivity| |].
  - apply Forall_inv_tail in Hall. cbn [dimension aggregate fst].
    f_equal. now apply IH.
  - apply Forall_inv in Hall. discriminate.
Qed.

Lemma rollup_dimensions (d : Row -> option string) (df : list Flagged) :
  map Some (map dimension (rollup d df))
  = map fst (groupby (fun f => d (base f)) isna df).
Proof.
  unfold rollup. apply present_keys_dimensions, rollup_keys_present.
Qed.

Lemma sorted_present (l : list string) :
  StronglySorted (fun a b : option string => cmp a b = Lt) (map Some l) ->
  StronglySorted (fun a b => String.compare a b = Lt) l.
Proof.
  induction l as [|a l IH]; cbn [map]; intros Hs; [constructor|].
  apply StronglySorted_inv in Hs as [Hs Hall].
  constructor; [auto|].
  apply Forall_forall. intros b Hb.
  rewrite Forall_forall in Hall.
  apply (Hall (Some b)). now apply in_map.
Qed.

Lemma rollup_in (d : Row -> option string) (df : list Flagged) (m : Metrics) :
  In m (rollup d df) ->
  m = aggregate (dimension m,
                 filter (fun f => holds (dimension m) (d (base f))) df) /\
  filter (fun f => holds (dimension m) (d (base f))) df <> [].
Proof.
  unfold rollup. intros Hin.
  apply in_flat_map in Hin as ([[v|] rows] & Hin & Hm);
    cbn [fst snd] in Hm; [|destruct Hm].
  destruct Hm as [<-|[]].
  destruct (groupby_group _ _ _ _ _ Hin) as [Hrows Hne].
  cbn [aggregate dimension fst snd] in *.
  assert (Hfilter : rows = filter (fun f => holds v (d (base f))) df).
  { rewrite Hrows. apply filter_ext. intros f. apply cmp_eqb_cell. }
  rewrite <- Hfilter. auto.
Qed.

(** X4. A rollup has one line per value of its dimension that occurs in
    the table, no value twice, the lines in increasing order of the
    values. *)
Theorem rollup_one_row_per_value (d : Row -> option string) (df : list Flagged) :
  StronglySorted (fun a b => String.compare a b = Lt)
                 (map dimension (rollup d df)) /\
  NoDup (map dimension (rollup d df)) /\
  forall v, In v (map dimension (rollup d df)) <->
            exists f, In f df /\ d (base f) = Some v.
Proof.
  pose proof (rollup_dimensions d df) as Hdim.
  pose proof (groupby_sorted (fun f : Flagged => d (base f)) isna df) as Hsorted.
  split; [|split].
  - apply sorted_present. rewrite Hdim. exact Hsorted.
  - apply (NoDup_map_inv Some). rewrite Hdim. now apply sorted_keys_NoDup.
  - intros v.
    assert (Hv : In v (map dimension (rollup d df)) <->
                 In (Some v) (map Some (map dimension (rollup d df)))).
    { split; [apply in_map|].
      intros Hin. apply in_map_iff in Hin as (w & [= ->] & Hin). exact Hin. }
    rewrite Hv, Hdim, groupby_keys. split.
    + intros (f & Hin & Hf & _). eauto.
    + intros (f & Hin & Hf). exists f. auto.
Qed.

Lemma filter_length_all {A} (p : A -> bool) (l : list A) :
  List.length (filter p l) = List.length l <-> Forall (fun a => p a = true) l.
Proof.
  induction l as [|a l IH]; cbn [filter List.length].
  - split; [constructor|reflexivity].
  - pose proof (filter_length_le p l) as Hle.
    destruct (p a) eqn:Hp; cbn [List.length]; split.
    + intros [= Hlen]. constructor; [assumption|now apply IH].
    + intros Hall. apply Forall_inv_tail in Hall. f_equal. now apply IH.
    + intros Hlen. exfalso. clear IH. revert Hlen Hle.
      generalize (List.length (filter p l)) (List.length l).
      intros n k -> Hk. exact (Nat.nle_succ_diag_l _ Hk).
    + intros Hall. apply Forall_inv in Hall. congruence.
Qed.

Lemma count_bounds {A} (col : Flagged -> option A) (rows : list Flagged) :
  0 <= count col rows <= Z.of_nat (List.length rows).
Proof.
  unfold count.
  pose proof (filter_length_le (fun f => negb (isna (col f))) rows).
  lia.
Qed.

(** X5. A line of a rollup sums, as 64-bit integers, the booked and the
    delivered impressions of the rows of the table that have its value, of
    which there is at least one; its campaign count is the number of these
    rows that have a lead identifier, ['count'] leaving out the missing
    cells: it is at most the number of rows of the value. *)
Theorem rollup_sums (d : Row -> option string) (df : list Flagged) (m : Metrics) :
  In m (rollup d df) ->
  let rows := filter (fun f => holds (dimension m) (d (base f))) df in
  rows <> [] /\
  Campaign_Count m
  = Z.of_nat (List.length (filter (fun f => negb (isna (Lead_ID (base f)))) rows)) /\
  0 <= Campaign_Count m <= Z.of_nat (List.length rows) /\
  Booked_sum m = int64_sum (map (fun f => Booked_Impressions (base f)) rows) /\
  Delivered_sum m = int64_sum (map (fun f => Delivered_Impressions (base f)) rows).
Proof.
  intros Hin. destruct (rollup_in d df m Hin) as [Hm Hne].
  cbv zeta. split; [exact Hne|].
  split; [|split; [|split]]; rewrite Hm; try reflexivity.
  cbn [aggregate Campaign_Count snd]. apply count_bounds.
Qed.

Lemma rollup_sums_witness :
  exists m1 m2,
    page_metrics (add_flags empty_fields) = [m1; m2] /\
    dimension m2 = "Homepage"%string /\
    Campaign_Count m2 = 1 /\ Booked_sum m2 = 1200000 /\ Delivered_sum m2 = 1050000.
Proof.
  do 2 eexists. split; [reflexivity|]. split; [reflexivity|].
  destruct (rollup_sums Page (add_flags empty_fields)
              (aggregate ("Homepage"%string,
                          filter (fun f => holds "Homepage" (Page (base f)))
                                 (add_flags empty_fields))))
    as (_ & Hc & _ & Hb & Hd).
  - right. left. reflexivity.
  - split; [exact Hc|]. split; [exact Hb|exact Hd].
Defined.

Lemma present_keys_counts (g : list (option string * list Flagged)) :
  Forall (fun k => isna k = false) (map fst g) ->
  fold_right Z.add 0
    (map Campaign_Count
         (flat_map (fun g => match fst g with
                             | Some v => [aggregate (v, snd g)]
                             | None => []
                             end) g))
  = Z.of_nat (list_sum
                (map (fun kv => List.length
                                  (filter (fun f => negb (isna (Lead_ID (base f))))
                                          (snd kv))) g)).
Proof.
  induction g as [|[[v|] rows] g IH]; intros Hall; [reflexivity| |].
  - apply Forall_inv_tail in Hall.
    change (Campaign_Count (aggregate (v, rows))
            + fold_right Z.add 0
                (map Campaign_Count
                     (flat_map (fun g => match fst g with
                                         | Some v => [aggregate (v, snd g)]
                                         | None => []
                                         end) g))
            = Z.of_nat
                (List.length (filter (fun f => negb (isna (Lead_ID (base f)))) rows)
                 + list_sum
                     (map (fun kv => List.length
                                       (filter (fun f => negb (isna (Lead_ID (base f))))
                                               (snd kv))) g))).
    rewrite (IH Hall), Nat2Z.inj_add. reflexivity.
  - apply Forall_inv in Hall. discriminate.
Qed.

(** X6. The campaign counts of a rollup add up to the number of rows of
    the table that have both a value in the column of the dimension and a
    lead identifier: they add up to the number of rows of the table exactly
    when no row lacks either. *)
Theorem rollup_counts_total (d : Row -> option string) (df : list Flagged) :
  fold_right Z.add 0 (map Campaign_Count (rollup d df))
  = Z.of_nat (List.length
                (filter (fun f => negb (isna (d (base f)))
                                  && negb (isna (Lead_ID (base f)))) df)) /\
  (fold_right Z.add 0 (map Campaign_Count (rollup d df))
   = Z.of_nat (List.length df) <->
   Forall (fun f => d (base f) <> None /\ Lead_ID (base f) <> None) df).
Proof.
  assert (Hsum : fold_right Z.add 0 (map Campaign_Count (rollup d df))
                 = Z.of_nat (List.length
                      (filter (fun f => negb (isna (d (base f)))
                                        && negb (isna (Lead_ID (base f)))) df))).
  { unfold rollup.
    rewrite present_keys_counts by apply rollup_keys_present.
    now rewrite groupby_counts. }
  split; [exact Hsum|].
  rewrite Hsum, Nat2Z.inj_iff, filter_length_all.
  split; intros Hall; (eapply Forall_impl; [|exact Hall]); intros f; cbv beta.
  - destruct (d (base f)), (Lead_ID (base f)); cbn; intros Hf;
      split; congruence.
  - intros [Hd Hl]. destruct (d (base f)), (Lead_ID (base f)); cbn; congruence.
Qed.

(** X7. When the booked impressions of a value add up to 0, its fill rate
    is not guarded: it is NaN when the delivered impressions add up to 0
    too, and the infinity of their sign otherwise. *)
Theorem rollup_fill_rate_nothing_booked
        (d : Row -> option string) (df : list Flagged) (m : Metrics) :
  In m (rollup d df) ->
  Booked_sum m = 0 ->
  Fill_Rate m = if Delivered_sum m =? 0 then F64.nan
                else S754_infinity (Delivered_sum m <? 0).
Proof.
  intros Hin Hb. destruct (rollup_in d df m Hin) as [Hm _].
  assert (Hfill : Fill_Rate m = group_fill_rate (Delivered_sum m) (Booked_sum m))
    by (rewrite Hm; reflexivity).
  assert (Hrange : - 2 ^ 63 <= Delivered_sum m < 2 ^ 63).
  { rewrite Hm. cbn [aggregate Delivered_sum]. apply int64_wrap_range. }
  rewrite Hfill, Hb. now apply group_fill_rate_zero_booked.
Qed.

Lemma rollup_fill_rate_nothing_booked_witness :
  exists m, page_metrics (add_flags [nothing_booked]) = [m] /\
            Booked_sum m = 0 /\ Delivered_sum m = 5 /\
            Fill_Rate m = F64.inf.
Proof.
  eexists. split; [reflexivity|]. split; [reflexivity|]. split; [reflexivity|].
  apply (rollup_fill_rate_nothing_booked Page (add_flags [nothing_booked])).
  - left. reflexivity.
  - reflexivity.
Defined.

(** X8. In the rollups of a flagged table the overbooking rate is 0 on
    every line, the column [Overbooking] being false on every row. *)
Theorem rollup_overbooking_rate_zero
        (d : Row -> option string) (rows : list Row) (m : Metrics) :
  In m (rollup d (add_flags rows)) ->
  Z.of_nat (List.length rows) <= 2 ^ 63 ->
  Overbooking_Rate m = F64.zero.
Proof.
  intros Hin Hlen. destruct (rollup_in d _ m Hin) as [Hm Hne].
  rewrite Hm. cbn [aggregate Overbooking_Rate snd].
  set (group := filter _ (add_flags rows)) in *.
  apply percentage_none.
  - exact Hne.
  - assert (Hle : (List.length group <= List.length (add_flags rows))%nat)
      by apply filter_length_le.
    assert (Hsame : List.length (add_flags rows) = List.length rows).
    { rewrite <- (add_flags_base rows) at 2. now rewrite length_map. }
    lia.
  - apply Forall_forall. intros f Hf. unfold group in Hf.
    apply filter_In in Hf as [Hf _]. now apply (Overbooking_false rows).
Qed.

Lemma rollup_overbooking_rate_zero_witness :
  exists m1 m2,
    page_metrics (add_flags two_in_slot) = [m1; m2] /\
    Overbooking_Rate m2 = F64.zero.
Proof.
  do 2 eexists. split; [reflexivity|].
  apply (rollup_overbooking_rate_zero Page two_in_slot).
  - right. left. reflexivity.
  - vm_compute. discriminate.
Defined.

(** ** Quotient *)

Lemma new_location_location (den num : Z) :
  0 <= num < den -> new_location den num = location num den.
Proof.
  intros Hnum. unfold new_location, new_location_even, new_location_odd, location.
  destruct (Z.even den) eqn:Heven; [reflexivity|].
  destruct (Z.eqb_spec num 0) as [_|Hne]; [reflexivity|].
  f_equal.
  assert (Hodd : Z.odd den = true) by (rewrite <- Z.negb_even, Heven; reflexivity).
  apply Z.odd_spec in Hodd as (j & Hj).
  destruct (Z.compare_spec (2 * num + 1) den) as [E|L|G];
    symmetry; [apply Z.compare_lt_iff|apply Z.compare_lt_iff|apply Z.compare_gt_iff];
    lia.
Qed.

(** The quotient of two positive normal numbers, away from the ends of
    the exponent range: the quotient of the first mantissa, shifted by 53
    places, by the second has 53 or 54 digits, of which 53 are kept. *)
Lemma div_normal (mx my : positive) (ex ey : Z) :
  2 ^ 52 <= Zpos mx < 2 ^ 53 -> 2 ^ 52 <= Zpos my < 2 ^ 53 ->
  -1021 <= ex - ey -> ex - ey <= 1021 ->
  exists M E n,
    F64.div (S754_finite false mx ex) (S754_finite false my ey)
    = S754_finite false M E /\
    (n = 0 \/ n = 1) /\
    2 ^ 52 <= Zpos M < 2 ^ 53 /\
    (E = ex - ey - 53 + n \/ E = ex - ey - 53 + n + 1) /\
    2 ^ (52 + n) * Zpos my <= Zpos mx * 2 ^ 53 /\
    2 * Z.abs (Zpos M * 2 ^ (E - (ex - ey - 53)) * Zpos my - Zpos mx * 2 ^ 53)
    <= 2 ^ n * Zpos my.
Proof.
  intros Hx Hy Hlo Hhi.
  unfold F64.div, F64.prec, F64.emax, SFdiv, SFdiv_core_binary. cbn [xorb].
  rewrite (Zdigits2_unique (Zpos mx) 53), (Zdigits2_unique (Zpos my) 53)
    by (try lia; change (2 ^ (53 - 1)) with (2 ^ 52); assumption).
  replace (53 + ex - (53 + ey)) with (ex - ey) by lia.
  rewrite fexp_normal by lia.
  rewrite Z.min_l by lia.
  replace (ex - ey - (ex - ey - 53)) with 53 by lia.
  rewrite Z.shiftl_mul_pow2 by lia.
  set (X := Zpos mx * 2 ^ 53).
  pose proof (Z_div_mod X (Zpos my) ltac:(lia)) as Hdm.
  destruct (Z.div_eucl X (Zpos my)) as [q r]. destruct Hdm as [HX Hr].
  rewrite new_location_location by lia.
  assert (HXlo : 2 ^ 52 * 2 ^ 53 <= X).
  { unfold X. apply Z.mul_le_mono_nonneg_r; lia. }
  assert (HXhi : X < 2 ^ 53 * 2 ^ 53).
  { unfold X. apply Z.mul_lt_mono_pos_r; lia. }
  assert (Hq : 2 ^ 52 <= q < 2 ^ 54).
  { split.
    - destruct (Z.le_gt_cases (2 ^ 52) q) as [|Hlt]; [assumption|].
      assert (Zpos my * q <= Zpos my * (2 ^ 52 - 1))
        by (apply Z.mul_le_mono_nonneg_l; lia).
      assert (Zpos my * (2 ^ 52 - 1) <= 2 ^ 53 * (2 ^ 52 - 1))
        by (apply Z.mul_le_mono_nonneg_r; lia).
      change (2 ^ 53 * (2 ^ 52 - 1)) with (2 ^ 52 * 2 ^ 53 - 2 ^ 53) in *.
      lia.
    - destruct (Z.le_gt_cases (2 ^ 54) q) as [Hge|]; [|assumption].
      assert (2 ^ 52 * 2 ^ 54 <= Zpos my * q)
        by (apply Z.mul_le_mono_nonneg; lia).
      change (2 ^ 52 * 2 ^ 54) with (2 ^ 53 * 2 ^ 53) in *.
      lia. }
  assert (Hn : q < 2 ^ 53 \/ 2 ^ 53 <= q) by lia.
  destruct Hn as [Hn|Hn].
  - destruct (binary_round_aux_normal false q (ex - ey - 53) r (Zpos my) 0)
      as (M & E & Hres & HM & HE & Herr); try lia.
    exists M, E, 0. rewrite Hres.
    split; [reflexivity|]. split; [lia|]. split; [exact HM|]. split; [lia|].
    split.
    + change (2 ^ (52 + 0)) with (2 ^ 52).
      assert (2 ^ 52 * Zpos my <= q * Zpos my)
        by (apply Z.mul_le_mono_nonneg_r; lia).
      lia.
    + replace (q * Zpos my + r) with X in Herr by lia. exact Herr.
  - destruct (binary_round_aux_normal false q (ex - ey - 53) r (Zpos my) 1)
      as (M & E & Hres & HM & HE & Herr); try lia.
    exists M, E, 1. rewrite Hres.
    split; [reflexivity|]. split; [lia|]. split; [exact HM|]. split; [lia|].
    split.
    + change (2 ^ (52 + 1)) with (2 ^ 53).
      assert (2 ^ 53 * Zpos my <= q * Zpos my)
        by (apply Z.mul_le_mono_nonneg_r; lia).
      lia.
    + replace (q * Zpos my + r) with X in Herr by lia. exact Herr.
Qed.

(** ** The global fill rate *)

Lemma one_times_100 :
  F64.mul (S754_finite false (2 ^ 52) (-52)) (F64.of_int 100) = F64.of_int 100.
Proof. vm_compute. reflexivity. Qed.

(** A number divided by itself is 1. *)
Lemma div_same (m : positive) (e : Z) :
  2 ^ 52 <= Zpos m < 2 ^ 53 ->
  F64.div (S754_finite false m e) (S754_finite false m e)
  = S754_finite false (2 ^ 52) (-52).
Proof.
  intros Hm.
  destruct (div_normal m m e e Hm Hm) as (M & E & n & -> & Hn & HM & HE & _ & Herr);
    [lia|lia|].
  replace (e - e - 53) with (-53) in * by lia.
  set (V := Zpos M * 2 ^ (E - -53)) in *.
  replace (V * Zpos m - Zpos m * 2 ^ 53) with ((V - 2 ^ 53) * Zpos m) in Herr by ring.
  rewrite Z.abs_mul, (Z.abs_eq (Zpos m)), Z.mul_assoc in Herr by lia.
  apply Z.mul_le_mono_pos_r in Herr; [|lia].
  assert (HV : V = Zpos M * 2 ^ (E + 53)) by (unfold V; f_equal; f_equal; lia).
  clearbody V.
  assert (HM52 : Zpos M = 2 ^ 52 /\ E = -52).
  { change (2 ^ 52) with 4503599627370496 in *.
    change (2 ^ 53) with 9007199254740992 in *.
    destruct Hn as [->| ->]; destruct HE as [->| ->].
    - change (2 ^ (-53 + 0 + 53)) with 1 in HV. change (2 ^ 0) with 1 in Herr. lia.
    - change (2 ^ (-53 + 0 + 1 + 53)) with 2 in HV. change (2 ^ 0) with 1 in Herr. lia.
    - change (2 ^ (-53 + 1 + 53)) with 2 in HV. change (2 ^ 1) with 2 in Herr. lia.
    - change (2 ^ (-53 + 1 + 1 + 53)) with 4 in HV. change (2 ^ 1) with 2 in Herr. lia. }
  destruct HM52 as [HMv ->]. f_equal. apply Pos2Z.inj. exact HMv.
Qed.

(** X12. When the delivered impressions of the table add up to what is
    booked (a positive total below [2^53]), the overall fill rate is
    exactly 100 and the metric reads "On Target". *)
Theorem fill_rate_on_target (df : list Flagged) :
  0 < total_booked df < 2 ^ 53 ->
  total_delivered df = total_booked df ->
  fill_rate df = F64.of_int 100 /\
  F64.eqb (fill_rate df) (F64.of_int 100) = true.
Proof.
  intros Hb Hd.
  assert (Hrate : fill_rate df = F64.of_int 100).
  { unfold fill_rate. rewrite Hd.
    replace (0 <? total_booked df) with true by (symmetry; apply Z.ltb_lt; lia).
    destruct (of_int_digits (total_booked df) 53) as (k & Hk & Hbk & ->);
      [lia|lia|].
    rewrite div_same.
    - apply one_times_100.
    - rewrite Z2Pos.id.
      + apply scale_bounds; lia.
      + apply Z.mul_pos_pos; [lia|]. apply Z.pow_pos_nonneg; lia. }
  split; [exact Hrate|]. rewrite Hrate. vm_compute. reflexivity.
Qed.

Lemma fill_rate_on_target_witness :
  fill_rate (add_flags [late_booking]) = F64.of_int 100.
Proof.
  apply (fill_rate_on_target (add_flags [late_booking])).
  - vm_compute. split; reflexivity.
  - reflexivity.
Defined.

(** Arithmetic of two roundings in a row. *)
Lemma within_half_ulp (a x u n : Z) :
  0 <= n -> 2 * Z.abs (a - x) <= 2 ^ n * u -> 2 ^ (52 + n) * u <= x ->
  2 ^ 53 * Z.abs (a - x) <= x.
Proof.
  intros Hn Herr Hlow. rewrite Z.pow_add_r in Hlow by lia.
  rewrite <- Z.mul_assoc in Hlow.
  set (N := 2 ^ n * u) in *. clearbody N.
  change (2 ^ 53) with 9007199254740992.
  change (2 ^ 52) with 4503599627370496 in Hlow. lia.
Qed.

Lemma scale_error (c a x : Z) :
  0 <= c -> 2 ^ 53 * Z.abs (a - x) <= x ->
  2 ^ 53 * Z.abs (c * a - c * x) <= c * x.
Proof.
  intros Hc Herr.
  replace (c * a - c * x) with (c * (a - x)) by ring.
  rewrite Z.abs_mul, (Z.abs_eq c) by assumption.
  replace (2 ^ 53 * (c * Z.abs (a - x))) with (c * (2 ^ 53 * Z.abs (a - x))) by ring.
  now apply Z.mul_le_mono_nonneg_l.
Qed.

Lemma compose_errors (w p t : Z) :
  2 ^ 53 * Z.abs (p - t) <= t -> 2 ^ 53 * Z.abs (w - p) <= p ->
  2 ^ 51 * Z.abs (w - t) <= t.
Proof.
  change (2 ^ 53) with 9007199254740992.
  change (2 ^ 51) with 2251799813685248. lia.
Qed.

Lemma pow2_prod4 (a b c d t : Z) :
  0 <= a -> 0 <= b -> 0 <= c -> 0 <= d -> a + b + c + d = t ->
  2 ^ t = 2 ^ a * 2 ^ b * 2 ^ c * 2 ^ d.
Proof.
  intros Ha Hb Hc Hd <-. now rewrite !Z.pow_add_r by lia.
Qed.

Lemma fill_rate_accuracy_core (D B kD kB Mq Eq n MF EF n2 : Z) :
  1 <= kD <= 53 -> 1 <= kB <= 53 -> 0 <= D -> 0 < B -> 0 <= Mq ->
  n = 0 \/ n = 1 -> n2 = 52 \/ n2 = 53 ->
  Eq = kD - 53 - (kB - 53) - 53 + n \/ Eq = kD - 53 - (kB - 53) - 53 + n + 1 ->
  EF = Eq + -46 + n2 \/ EF = Eq + -46 + n2 + 1 ->
  2 ^ (52 + n) * (B * 2 ^ (53 - kB)) <= D * 2 ^ (53 - kD) * 2 ^ 53 ->
  2 * Z.abs (Mq * 2 ^ (Eq - (kD - 53 - (kB - 53) - 53)) * (B * 2 ^ (53 - kB))
             - D * 2 ^ (53 - kD) * 2 ^ 53)
  <= 2 ^ n * (B * 2 ^ (53 - kB)) ->
  2 ^ (52 + n2) <= Mq * 7036874417766400 ->
  2 * Z.abs (MF * 2 ^ (EF - (Eq + -46)) - Mq * 7036874417766400) <= 2 ^ n2 ->
  0 <= EF + 152 /\
  2 ^ 51 * Z.abs (MF * 2 ^ (EF + 152) * B - 100 * D * 2 ^ 152)
  <= 100 * D * 2 ^ 152.
Proof.
  intros HkD HkB HD HB HMq Hn Hn2 HEq HEF Hlow Herr Hlow2 Herr2.
  assert (Hg : 0 <= Eq - (kD - 53 - (kB - 53) - 53)) by lia.
  assert (Hh : 0 <= EF - (Eq + -46)) by lia.
  assert (Hsum1 : kD + (EF - (Eq + -46)) + (53 - kB)
                  + (Eq - (kD - 53 - (kB - 53) - 53)) = EF + 152) by lia.
  assert (HEF152 : 0 <= EF + 152) by lia.
  assert (Hn0 : 0 <= n) by lia.
  assert (Hn20 : 0 <= n2) by lia.
  split; [exact HEF152|].
  pose proof (pow2_prod4 kD (EF - (Eq + -46)) (53 - kB)
                (Eq - (kD - 53 - (kB - 53) - 53)) (EF + 152)
                ltac:(lia) Hh ltac:(lia) Hg Hsum1) as HpowW.
  pose proof (pow2_prod4 kD 46 (53 - kD) 53 152
                ltac:(lia) ltac:(lia) ltac:(lia) ltac:(lia) ltac:(lia)) as HpowT.
  assert (HG : 0 < 2 ^ (Eq - (kD - 53 - (kB - 53) - 53)))
    by (apply Z.pow_pos_nonneg; lia).
  assert (HSB : 0 < 2 ^ (53 - kB)) by (apply Z.pow_pos_nonneg; lia).
  assert (HkDpos : 0 < 2 ^ kD) by (apply Z.pow_pos_nonneg; lia).
  clear HkD HkB Hn Hn2 HEq HEF Hg Hh Hsum1 HEF152.
  set (G := 2 ^ (Eq - (kD - 53 - (kB - 53) - 53))) in *.
  set (H := 2 ^ (EF - (Eq + -46))) in *.
  set (SB := 2 ^ (53 - kB)) in *. set (SD := 2 ^ (53 - kD)) in *.
  set (K := 2 ^ kD) in *.
  clearbody G H SB SD K.
  pose proof (within_half_ulp _ _ _ _ Hn0 Herr Hlow) as HA.
  pose proof (within_half_ulp (MF * H) (Mq * 7036874417766400) 1 n2 Hn20
                ltac:(rewrite Z.mul_1_r; exact Herr2)
                ltac:(rewrite Z.mul_1_r; exact Hlow2)) as HB2.
  clear Herr Hlow Herr2 Hlow2 Hn0 Hn20.
  apply (scale_error 7036874417766400) in HA; [|lia].
  assert (HBG : 0 <= B * SB * G).
  { apply Z.mul_nonneg_nonneg; [|lia]. apply Z.mul_nonneg_nonneg; lia. }
  apply (scale_error (B * SB * G)) in HB2; [|exact HBG].
  replace (B * SB * G * (Mq * 7036874417766400))
    with (7036874417766400 * (Mq * G * (B * SB))) in HB2 by ring.
  pose proof (compose_errors _ _ _ HA HB2) as HC.
  clear HA HB2 HBG.
  rewrite HpowW, HpowT.
  replace (MF * (K * H * SB * G) * B) with (K * (B * SB * G * (MF * H))) by ring.
  replace (100 * D * (K * 2 ^ 46 * SD * 2 ^ 53))
    with (K * (7036874417766400 * (D * SD * 2 ^ 53)))
    by (change 7036874417766400 with (100 * 2 ^ 46); ring).
  set (w := B * SB * G * (MF * H)) in *.
  set (t := 7036874417766400 * (D * SD * 2 ^ 53)) in *.
  clearbody w t. clear HpowW HpowT.
  replace (K * w - K * t) with (K * (w - t)) by ring.
  rewrite Z.abs_mul, (Z.abs_eq K) by lia.
  replace (2 ^ 51 * (K * Z.abs (w - t))) with (K * (2 ^ 51 * Z.abs (w - t))) by ring.
  apply Z.mul_le_mono_nonneg_l; [lia|exact HC].
Qed.

(** X13. When both totals are positive and below [2^53], the overall fill
    rate is a finite positive number within a relative error of [2^-51] of
    the exact quotient [100 * delivered / booked]: with the rate scaled by
    [2^152] to an integer,
    [|rate * booked - 100 * delivered| <= 100 * delivered / 2^51]. *)
Theorem fill_rate_accuracy (df : list Flagged) :
  0 < total_booked df < 2 ^ 53 ->
  0 < total_delivered df < 2 ^ 53 ->
  exists M E,
    fill_rate df = S754_finite false M E /\
    0 <= E + 152 /\
    2 ^ 51 * Z.abs (scaled (fill_rate df) 152 * total_booked df
                    - 100 * total_delivered df * 2 ^ 152)
    <= 100 * total_delivered df * 2 ^ 152.
Proof.
  intros HB HD. unfold fill_rate.
  replace (0 <? total_booked df) with true by (symmetry; apply Z.ltb_lt; lia).
  generalize dependent (total_booked df). intros B HB.
  generalize dependent (total_delivered df). intros D HD.
  destruct (of_int_digits D 53) as (kD & HkD & HDk & ->); [lia|lia|].
  destruct (of_int_digits B 53) as (kB & HkB & HBk & ->); [lia|lia|].
  pose proof (scale_bounds D kD HkD HDk) as HmD.
  pose proof (scale_bounds B kB HkB HBk) as HmB.
  assert (HmDpos : 0 < D * 2 ^ (53 - kD))
    by (change (2 ^ 52) with 4503599627370496 in HmD; lia).
  assert (HmBpos : 0 < B * 2 ^ (53 - kB))
    by (change (2 ^ 52) with 4503599627370496 in HmB; lia).
  destruct (div_normal (Z.to_pos (D * 2 ^ (53 - kD))) (Z.to_pos (B * 2 ^ (53 - kB)))
                       (kD - 53) (kB - 53))
    as (Mq & Eq & n & -> & Hn & HMq & HEq & Hlow & Herr);
    [rewrite Z2Pos.id by exact HmDpos; exact HmD
    |rewrite Z2Pos.id by exact HmBpos; exact HmB
    |lia|lia|].
  rewrite !Z2Pos.id in Hlow, Herr by assumption.
  rewrite of_int_100.
  destruct (mul_normal Mq 7036874417766400 Eq (-46))
    as (MF & EF & n2 & -> & Hn2 & HMF & HEF & Hlow2 & Herr2);
    [exact HMq|split; [discriminate|reflexivity]|lia|lia|].
  exists MF, EF. split; [reflexivity|].
  cbn [scaled cond_Zopp].
  apply (fill_rate_accuracy_core D B kD kB (Zpos Mq) Eq n (Zpos MF) EF n2);
    try assumption; lia.
Qed.

Lemma fill_rate_accuracy_witness :
  exists M E,
    fill_rate (add_flags two_in_slot) = S754_finite false M E /\
    0 <= E + 152 /\
    2 ^ 51 * Z.abs (scaled (fill_rate (add_flags two_in_slot)) 152
                    * total_booked (add_flags two_in_slot)
                    - 100 * total_delivered (add_flags two_in_slot) * 2 ^ 152)
    <= 100 * total_delivered (add_flags two_in_slot) * 2 ^ 152.
Proof.
  apply (fill_rate_accuracy (add_flags two_in_slot)).
  - vm_compute. split; reflexivity.
  - vm_compute. split; reflexivity.
Defined.

(** ** More on the runs of the script *)

Section ScriptRunsMore.
Variable to_datetime : string -> option Timestamp.

Lemma flagged_table_base (u : Upload) :
  map base (flagged_table to_datetime u)
  = map (normalize_row to_datetime u) (records u).
Proof. apply add_flags_base. Qed.

Lemma flagged_table_length (u : Upload) :
  List.length (flagged_table to_datetime u) = List.length (records u).
Proof.
  rewrite <- (length_map base), flagged_table_base. apply length_map.
Qed.

Lemma warnings_no_exception (u : Upload) :
  existsb is_exception (flat_map (column_warning to_datetime u) date_columns)
  = false.
Proof.
  apply not_true_is_false. intros Hex.
  apply existsb_exists in Hex as (ev & Hin & Hev).
  pose proof (warnings_only to_datetime u) as Hw. rewrite Forall_forall in Hw.
  destruct (Hw ev Hin) as (col & _ & ->). discriminate.
Qed.

(** X9. The page of a file that has all its columns counts 0 overbooking
    issues and shows a table whose column [Overbooking] is false on every
    line, whatever the file books. *)
Theorem overbooking_never_flagged (u : Upload) :
  (forall c, In c required_columns -> has_column u c = true) ->
  In (st_metric "Overbooking Issues" (Int 0) None) (process to_datetime u) /\
  In (st_dataframe (CampaignData (map show (flagged_table to_datetime u))))
     (process to_datetime u) /\
  Forall (fun s => shown_Overbooking s = false)
         (map show (flagged_table to_datetime u)).
Proof.
  intros Hall. rewrite (process_complete to_datetime u Hall).
  rewrite show_metrics_events.
  assert (Hnone : Forall (fun f => Overbooking f = false)
                         (flagged_table to_datetime u))
    by apply add_flags_Overbooking.
  rewrite (count_true_none Overbooking _ Hnone).
  split; [|split].
  - apply in_or_app. right. apply in_or_app. left. simpl. auto 10.
  - apply in_or_app. right. apply in_or_app. right.
    apply in_or_app. left. simpl. auto.
  - apply Forall_map. eapply Forall_impl; [|exact Hnone]. auto.
Qed.

(** X10. A file that has all its columns is shown line by line: the table
    displayed, which is also the one offered for download, has the
    identifiers, the dimensions and the two counts of the lines of the
    file, in their order, and the first counter is the number of lines. *)
Theorem displayed_table_is_the_file (u : Upload) :
  (forall c, In c required_columns -> has_column u c = true) ->
  let shown := map show (flagged_table to_datetime u) in
  In (st_dataframe (CampaignData shown)) (process to_datetime u) /\
  In (st_download_button "Download data as CSV" shown) (process to_datetime u) /\
  In (st_metric "Total Campaigns" (Int (Z.of_nat (List.length (records u)))) None)
     (process to_datetime u) /\
  map shown_Lead_ID shown = map Lead_ID (records u) /\
  map shown_Line_item_ID shown = map Line_item_ID (records u) /\
  map shown_Page shown = map Page (records u) /\
  map shown_Property shown = map Property (records u) /\
  map shown_Booked_Impressions shown = map Booked_Impressions (records u) /\
  map shown_Delivered_Impressions shown = map Delivered_Impressions (records u).
Proof.
  intros Hall shown. unfold shown.
  rewrite (process_complete to_datetime u Hall), show_metrics_events.
  rewrite flagged_table_length.
  split; [|split; [|split]].
  - apply in_or_app. right. apply in_or_app. right.
    apply in_or_app. left. simpl. auto.
  - apply in_or_app. right. apply in_or_app. right.
    apply in_or_app. left. simpl. auto.
  - apply in_or_app. right. apply in_or_app. left. simpl. auto 10.
  - assert (Hcol : forall {B} (col : Row -> B) (shown_col : ShownRow -> B)
                          (raw_col : RawRow -> B),
               (forall f, shown_col (show f) = col (base f)) ->
               (forall r, col (normalize_row to_datetime u r) = raw_col r) ->
               map shown_col (map show (flagged_table to_datetime u))
               = map raw_col (records u)).
    { intros B col shown_col raw_col Hshow Hraw.
      rewrite map_map.
      rewrite (map_ext _ (fun f => col (base f)) Hshow).
      rewrite <- (map_map base col), flagged_table_base, map_map.
      apply map_ext. exact Hraw. }
    repeat split.
    + apply (Hcol _ Lead_ID); reflexivity.
    + apply (Hcol _ Line_item_ID); reflexivity.
    + apply (Hcol _ Page); reflexivity.
    + apply (Hcol _ Property); reflexivity.
    + apply (Hcol _ Booked_Impressions); reflexivity.
    + apply (Hcol _ Delivered_Impressions); reflexivity.
Qed.

(** X11. The [except] block runs whenever the file lacks one of the nine
    columns or has no line. A file that has the nine columns and no line
    is shown as far as the first chart: a fill rate of 0, 100 under the
    target, the four counters at 0, the empty table and its download;
    then the percentages of line 136 divide by the number of lines, which
    is 0, and the [except] block reports the division. The rollups by page
    and by property are not reached. *)
Theorem error_block_runs (u : Upload) :
  ((exists c, In c required_columns /\ has_column u c = false) \/
   records u = [] ->
   existsb is_exception (process to_datetime u) = true) /\
  ((forall c, In c required_columns -> has_column u c = true) ->
   records u = [] ->
   process to_datetime u =
   [st_header "Overall Campaign Performance";
    st_metric "Overall Fill Rate" (Percent F64.zero)
              (Some (Percent (F64.of_int (-100))));
    st_header "Campaign Performance Metrics";
    st_metric "Total Campaigns" (Int 0) None;
    st_metric "Overbooking Issues" (Int 0) None;
    st_metric "Underdelivery Issues" (Int 0) None;
    st_metric "SLA Breaches" (Int 0) None;
    st_header "Campaign Data";
    st_dataframe (CampaignData []);
    st_download_button "Download data as CSV" [];
    st_header "True/False Analysis";
    st_tabs ["Issue Distribution"; "Page Analysis"; "Property Analysis"]%string;
    st_plotly_chart "Issue Distribution (True/False)"]
   ++ fst (handler ZeroDivisionError)).
Proof.
  split.
  - intros Hcase.
    unfold process, try_except. rewrite body_run. cbv zeta.
    destruct (find _ engine_columns) as [c0|] eqn:Hfind.
    { cbn [fst snd]. rewrite existsb_app, handler_run.
      cbn [fst existsb is_exception]. apply orb_true_r. }
    pose proof (engine_columns_present u Hfind) as Hengine.
    destruct (filter _ ["Lead ID"; "Line item ID"]%string) as [|m ms] eqn:Hids.
    + assert (Hall : forall c, In c required_columns -> has_column u c = true).
      { intros c Hc.
        apply (proj1 (in_required_columns to_datetime c)) in Hc as [Hid|Hc]; [|auto].
        destruct (has_column u c) eqn:Hhas; [reflexivity|].
        assert (Hin : In c (filter (fun c => negb (has_column u c))
                                   ["Lead ID"; "Line item ID"]%string)).
        { apply filter_In. split; [simpl; intuition auto|now rewrite Hhas]. }
        rewrite Hids in Hin. destruct Hin. }
      rewrite analysis_run.
      pose proof (flagged_table_length u) as Hlen.
      destruct (flagged_table to_datetime u) as [|f df]; cbn [fst snd].
      * rewrite !existsb_app, handler_run. cbn [fst existsb is_exception].
        now rewrite !orb_true_r.
      * exfalso. destruct Hcase as [(c & Hc & Habs)|Hnil].
        -- rewrite (Hall c Hc) in Habs. discriminate.
        -- rewrite Hnil in Hlen. discriminate.
    + cbn [fst snd]. rewrite existsb_app, handler_run.
      cbn [fst existsb is_exception]. apply orb_true_r.
  - intros Hall Hnil.
    rewrite (process_complete to_datetime u Hall).
    assert (Hwarn : flat_map (column_warning to_datetime u) date_columns = []).
    { unfold date_columns, column_warning. rewrite Hnil. cbn [flat_map existsb].
      now rewrite !andb_false_r. }
    assert (Hdf : flagged_table to_datetime u = []).
    { unfold flagged_table. rewrite Hnil. reflexivity. }
    rewrite Hwarn, Hdf. vm_compute. reflexivity.
Qed.
End ScriptRunsMore.

Lemma all_columns (lines : list RawRow) (c : string) :
  In c required_columns -> has_column (mkUpload required_columns lines) c = true.
Proof.
  intros Hc. unfold required_columns in Hc. simpl in Hc.
  repeat (destruct Hc as [<-|Hc]; [reflexivity|]). destruct Hc.
Qed.

Lemma overbooking_never_flagged_witness :
  In (st_metric "Overbooking Issues" (Int 0) None)
     (process dayfirst_parser overbooked_upload) /\
  map shown_Overbooking (map show (flagged_table dayfirst_parser overbooked_upload))
  = [false; false].
Proof.
  destruct (overbooking_never_flagged dayfirst_parser overbooked_upload)
    as (Hmetric & _ & _).
  - apply all_columns.
  - split; [exact Hmetric|reflexivity].
Defined.

Lemma displayed_table_is_the_file_witness :
  In (st_metric "Total Campaigns" (Int 2) None)
     (process dayfirst_parser overbooked_upload) /\
  map shown_Booked_Impressions
      (map show (flagged_table dayfirst_parser overbooked_upload))
  = [900000; 700000].
Proof.
  destruct (displayed_table_is_the_file dayfirst_parser overbooked_upload)
    as (_ & _ & Hmetric & _ & _ & _ & _ & Hbooked & _).
  - apply all_columns.
  - split; [exact Hmetric|exact Hbooked].
Defined.

Lemma error_block_runs_witness :
  existsb is_exception (process dayfirst_parser header_only_upload) = true /\
  In (st_metric "Total Campaigns" (Int 0) None)
     (process dayfirst_parser header_only_upload) /\
  In (st_exception "Error processing data: " ZeroDivisionError)
     (process dayfirst_parser header_only_upload).
Proof.
  destruct (error_block_runs dayfirst_parser header_only_upload) as [Hruns Hshown].
  split; [apply Hruns; right; reflexivity|].
  rewrite Hshown by (apply all_columns || reflexivity).
  split; vm_compute; auto 20.
Defined.
